(** * Shamba Records backend: authorization, persistence and aggregation

    A shallow embedding of the Django application in [shamba/]
    ([models.py], [permissions.py], [serializers.py], [views.py]).

    The relational datastore is a record of tables, each a list of rows in
    insertion order.  A request handler is a computation in a small
    state-and-exception monad over the datastore: the ORM calls read or
    write the tables, [get_object_or_404] and the permission checks raise,
    and the framework's dispatcher turns a raised exception into the
    response it stands for. *)

From Stdlib Require Import ZArith Lia.
From stdpp Require Import base option list strings gmap sorting.

Local Open Scope Z_scope.

(** ** Values *)

(** A field of a JSON request body: the key is missing, holds [null], or
    holds a value already read at the field's type (a string with its
    surrounding whitespace trimmed, a number, a date). *)
Inductive Field (A : Type) : Type :=
  | Absent
  | Null
  | Given (a : A).
Arguments Absent {A}.
Arguments Null {A}.
Arguments Given {A} a.

(** A value of a parsed request body that a view reads as it is, with
    no serializer field in between: a Python [int], a [float] (the finite
    float [mantissa * 2 ^ exponent], or an infinity, which the parser
    gives for a number too large for a float), a [str], a [bool], or a
    [list] or [dict]. *)
Inductive JSON : Type :=
  | JInt (n : Z)
  | JFloat (mantissa exponent : Z)
  | JInfinity
  | JStr (s : string)
  | JBool (b : bool)
  | JCompound (empty : bool).

(** Python's [Decimal]: the number [coefficient * 10 ^ exponent]. *)
Module Decimal.
Record t := mk { coefficient : Z; exponent : Z }.

(** Both coefficients brought to the smaller of the two exponents. *)
Definition align (a b : t) : Z * Z :=
  let e := Z.min (exponent a) (exponent b) in
  (coefficient a * 10 ^ (exponent a - e),
   coefficient b * 10 ^ (exponent b - e)).

Definition ltb (a b : t) : bool := let '(x, y) := align a b in x <? y.
Definition leb (a b : t) : bool := let '(x, y) := align a b in x <=? y.

Definition zero : t := mk 0 0.
(** [Decimal('0.01')] *)
Definition cent : t := mk 1 (-2).

(** [len(value.as_tuple().digits)] *)
Definition digits (a : t) : Z :=
  Z.of_nat (Decimal.nb_digits (N.to_uint (Z.abs_N (coefficient a)))).

(** [value.quantize(Decimal('.01'))] for a value with at most two
    decimal places. *)
Definition quantize (a : t) : t :=
  if exponent a <? -2 then a
  else mk (coefficient a * 10 ^ (exponent a + 2)) (-2).
End Decimal.

Module Date.
Record t := mk { year : Z; month : Z; day : Z }.
End Date.

(** A timestamp: calendar date and microseconds since midnight. *)
Module DateTime.
Record t := mk { year : Z; month : Z; day : Z; micros : Z }.

Definition compare (a b : t) : comparison :=
  match year a ?= year b with
  | Eq =>
      match month a ?= month b with
      | Eq =>
          match day a ?= day b with
          | Eq => micros a ?= micros b
          | c => c
          end
      | c => c
      end
  | c => c
  end.

Definition leb (a b : t) : bool :=
  match compare a b with Gt => false | _ => true end.
End DateTime.

(** ** models.py *)

Module User.
Record t := mk {
  id : Z;
  username : string;
  password : string;
  email : string;
  first_name : string;
  last_name : string;
  role : string;
  phone : option string;
  address : option string;
  created_at : DateTime.t;
  updated_at : DateTime.t
}.

Definition is_admin (u : t) : bool := String.eqb (role u) "admin".
Definition is_farmer (u : t) : bool := String.eqb (role u) "farmer".

(** Model instances compare by primary key. *)
Definition eqb (a b : t) : bool := id a =? id b.
End User.

Module Farmer.
Record t := mk {
  id : Z;
  user_id : Z;
  farm_name : option string;
  farm_size : option Decimal.t;
  location : option string;
  created_at : DateTime.t;
  updated_at : DateTime.t
}.
End Farmer.

Module Crop.
Definition CROP_TYPES : list string :=
  ["cereals"; "legumes"; "vegetables"; "fruits"; "cash_crops"; "other"]%string.
Definition CROP_STATUS : list string :=
  ["planted"; "growing"; "harvested"; "sold"]%string.

Record t := mk {
  id : Z;
  farmer_id : Z;
  name : string;
  crop_type : string;
  quantity : Decimal.t;
  unit : string;
  planting_date : option Date.t;
  expected_harvest_date : option Date.t;
  status : string;
  notes : option string;
  created_at : DateTime.t;
  updated_at : DateTime.t
}.

(** [Meta.ordering = ['-created_at']]: [a] may come before [b]. *)
Definition newest_first (a b : t) : Prop :=
  Is_true (DateTime.leb (created_at b) (created_at a)).
End Crop.

(** [rest_framework.authtoken.models.Token] *)
Module Token.
Record t := mk { key : string; user_id : Z }.
End Token.

(** ** The datastore *)

(** The tables, rows in insertion order, and the auto-increment counters
    of the three primary keys. *)
Module DB.
Record t := mk {
  users : list User.t;
  farmers : list Farmer.t;
  crops : list Crop.t;
  tokens : list Token.t;
  user_seq : Z;
  farmer_seq : Z;
  crop_seq : Z
}.

Definition empty : t := mk [] [] [] [] 1 1 1.

Definition set_users (f : list User.t → list User.t) (d : t) : t :=
  mk (f (users d)) (farmers d) (crops d) (tokens d)
     (user_seq d) (farmer_seq d) (crop_seq d).
Definition set_farmers (f : list Farmer.t → list Farmer.t) (d : t) : t :=
  mk (users d) (f (farmers d)) (crops d) (tokens d)
     (user_seq d) (farmer_seq d) (crop_seq d).
Definition set_crops (f : list Crop.t → list Crop.t) (d : t) : t :=
  mk (users d) (farmers d) (f (crops d)) (tokens d)
     (user_seq d) (farmer_seq d) (crop_seq d).
Definition set_tokens (f : list Token.t → list Token.t) (d : t) : t :=
  mk (users d) (farmers d) (crops d) (f (tokens d))
     (user_seq d) (farmer_seq d) (crop_seq d).

(** Foreign keys resolve and primary keys lie below their counters, as
    the database's constraints keep them. *)
Definition wf (d : t) : Prop :=
  Forall (λ u, User.id u < user_seq d) (users d)
  ∧ Forall (λ f, Farmer.id f < farmer_seq d) (farmers d)
  ∧ Forall (λ c, Crop.id c < crop_seq d) (crops d)
  ∧ Forall (λ f, Exists (λ u, User.id u = Farmer.user_id f) (users d))
           (farmers d)
  ∧ Forall (λ c, Exists (λ f, Farmer.id f = Crop.farmer_id c) (farmers d))
           (crops d).

#[global] Instance wf_dec (d : t) : Decision (wf d).
Proof. unfold wf. apply _. Defined.
End DB.

(** ** Requests, responses and the handler monad *)

Inductive Exn : Type :=
  | Http404
  | NotAuthenticated
  | PermissionDenied
  | MethodNotAllowed
  | ValidationError (errors : list string)
  | DatabaseError
  | ValueError  (* or TypeError, OverflowError: handled by no one, as DatabaseError *).

Inductive Result (A : Type) : Type :=
  | Val (a : A)
  | Raise (e : Exn).
Arguments Val {A} a.
Arguments Raise {A} e.

(** What a handler runs against: the datastore, the wall clock read by
    [auto_now] and [auto_now_add], and the datastore's answers to the
    write statements still to come ([true]: the statement raises a
    database error and changes nothing; an exhausted list: no failure). *)
Record World := mkWorld {
  db : DB.t;
  clock : DateTime.t;
  faults : list bool
}.

Definition M (A : Type) : Type := World → Result A * World.

Definition ret {A} (a : A) : M A := λ w, (Val a, w).
Definition raise {A} (e : Exn) : M A := λ w, (Raise e, w).
Definition bind {A B} (m : M A) (k : A → M B) : M B :=
  λ w, match m w with
       | (Val a, w') => k a w'
       | (Raise e, w') => (Raise e, w')
       end.

Declare Scope handler_scope.
Delimit Scope handler_scope with handler.
Notation "'let!' x ':=' m 'in' k" := (bind m (λ x, k))
  (at level 10, x pattern, m at level 100, k at level 200) : handler_scope.
Notation "'do!' m 'in' k" := (bind m (λ _, k))
  (at level 10, m at level 100, k at level 200) : handler_scope.
Local Open Scope handler_scope.

(** Read access to the tables. *)
Definition objects : M DB.t := λ w, (Val (db w), w).
(** [timezone.now()] *)
Definition now : M DateTime.t := λ w, (Val (clock w), w).

(** One write statement, committed on its own unless the datastore
    refuses it. *)
Definition execute (f : DB.t → DB.t) : M unit :=
  λ w, match faults w with
       | true :: fs => (Raise DatabaseError, mkWorld (db w) (clock w) fs)
       | false :: fs => (Val (), mkWorld (f (db w)) (clock w) fs)
       | [] => (Val (), mkWorld (f (db w)) (clock w) [])
       end.

Definition get_object_or_404 {A} (o : option A) : M A :=
  match o with
  | Some a => ret a
  | None => raise Http404
  end.

Inductive Method := GET | POST | PUT | PATCH | DELETE.

Inductive Status : Type :=
  | HTTP_200_OK
  | HTTP_201_CREATED
  | HTTP_204_NO_CONTENT
  | HTTP_400_BAD_REQUEST
  | HTTP_401_UNAUTHORIZED
  | HTTP_403_FORBIDDEN
  | HTTP_404_NOT_FOUND
  | HTTP_405_METHOD_NOT_ALLOWED
  | HTTP_500_INTERNAL_SERVER_ERROR.

(** [QueryDict.get]: the last value given for the key. *)
Definition QueryDict_get (key : string) (q : list (string * string))
  : option string :=
  last (List.map snd (List.filter (λ kv, String.eqb (fst kv) key) q)).

Module Request.
Record t (D : Type) := mk {
  method : Method;
  user : option User.t;
  query_params : list (string * string);
  data : D
}.
Arguments mk {D} _ _ _ _.
Arguments method {D} _.
Arguments user {D} _.
Arguments query_params {D} _.
Arguments data {D} _.
End Request.

(** ** The ORM calls the views make *)

Module orm.
Definition user_by_id (d : DB.t) (pk : Z) : option User.t :=
  List.find (λ u, User.id u =? pk) (DB.users d).
Definition farmer_by_id (d : DB.t) (pk : Z) : option Farmer.t :=
  List.find (λ f, Farmer.id f =? pk) (DB.farmers d).
(** [Farmer.objects.get(user=user)] *)
Definition farmer_by_user (d : DB.t) (u : User.t) : option Farmer.t :=
  List.find (λ f, Farmer.user_id f =? User.id u) (DB.farmers d).

(** A crop with the rows [select_related('farmer__user')] joins to it. *)
Record joined := mk_joined {
  crop : Crop.t;
  farmer : Farmer.t;
  farmer_user : User.t
}.

(** The inner join of one crop row to its farmer and the farmer's user. *)
Definition join (d : DB.t) (c : Crop.t) : option joined :=
  match farmer_by_id d (Crop.farmer_id c) with
  | Some f =>
      match user_by_id d (Farmer.user_id f) with
      | Some u => Some (mk_joined c f u)
      | None => None
      end
  | None => None
  end.

(** [Crop.objects.select_related('farmer__user').all()], in the model's
    default ordering. *)
Definition crops_select_related (d : DB.t) : list joined :=
  omap (join d) (merge_sort Crop.newest_first (DB.crops d)).

(** [Crop.objects.filter(farmer=farmer)], in the default ordering. *)
Definition crops_of_farmer (d : DB.t) (f : Farmer.t) : list Crop.t :=
  List.filter (λ c, Crop.farmer_id c =? Farmer.id f)
              (merge_sort Crop.newest_first (DB.crops d)).

(** [instance.save()] on a row that has a primary key: update the row,
    insert it when no row has that key. *)
Definition save_row {A} (pk : A → Z) (x : A) (l : list A) : list A :=
  if existsb (λ r, pk r =? pk x) l
  then List.map (λ r, if pk r =? pk x then x else r) l
  else l ++ [x].

(** [crop.delete()] *)
Definition delete_crop (c : Crop.t) (d : DB.t) : DB.t :=
  DB.set_crops (List.filter (λ r, negb (Crop.id r =? Crop.id c))) d.

(** [farmer.delete()]: the crops that reference the profile go with it
    ([on_delete=CASCADE]). *)
Definition delete_farmer (f : Farmer.t) (d : DB.t) : DB.t :=
  DB.set_farmers (List.filter (λ r, negb (Farmer.id r =? Farmer.id f)))
    (DB.set_crops
       (List.filter (λ r, negb (Crop.farmer_id r =? Farmer.id f))) d).

(** [user.delete()]: cascades to the user's token, to the profile that
    references the user and to that profile's crops. *)
Definition delete_user (u : User.t) (d : DB.t) : DB.t :=
  let profiles :=
    List.filter (λ r, Farmer.user_id r =? User.id u) (DB.farmers d) in
  let d1 := fold_right delete_farmer d profiles in
  DB.set_users (List.filter (λ r, negb (User.id r =? User.id u)))
    (DB.set_tokens
       (List.filter (λ r, negb (Token.user_id r =? User.id u))) d1).
End orm.

(** ** permissions.py *)

Module IsAdminUser.
Definition has_permission {D} (request : Request.t D) : bool :=
  match Request.user request with
  | Some u => User.is_admin u
  | None => false
  end.
End IsAdminUser.

Module IsFarmerUser.
Definition has_permission {D} (request : Request.t D) : bool :=
  match Request.user request with
  | Some u => User.is_farmer u
  | None => false
  end.
End IsFarmerUser.

(** [rest_framework.permissions.IsAuthenticated] *)
Module IsAuthenticated.
Definition has_permission {D} (request : Request.t D) : bool :=
  match Request.user request with
  | Some _ => true
  | None => false
  end.
End IsAuthenticated.

Module IsCropOwnerOrAdmin.
Definition has_permission {D} (request : Request.t D) : bool :=
  match Request.user request with
  | Some _ => true
  | None => false
  end.

(** Reached only after [has_permission], so with a user on the
    request; [obj.farmer.user] is the row joined to the crop. *)
Definition has_object_permission {D} (request : Request.t D)
    (obj : orm.joined) : bool :=
  match Request.user request with
  | Some u =>
      if User.is_admin u then true
      else User.eqb (orm.farmer_user obj) u
  | None => false
  end.
End IsCropOwnerOrAdmin.

(** [APIView.permission_denied]: an anonymous request is asked to
    authenticate, an authenticated one is refused. *)
Definition permission_denied {D A} (request : Request.t D) : M A :=
  match Request.user request with
  | Some _ => raise PermissionDenied
  | None => raise NotAuthenticated
  end.

(** [APIView.check_permissions] for a view with one permission class. *)
Definition check_permissions {D} (has_permission : Request.t D → bool)
    (request : Request.t D) : M unit :=
  if has_permission request then ret () else permission_denied request.

(** [APIView.check_object_permissions], likewise. *)
Definition check_object_permissions {D O}
    (has_object_permission : Request.t D → O → bool)
    (request : Request.t D) (obj : O) : M unit :=
  if has_object_permission request obj then ret ()
  else permission_denied request.

(** ** serializers.py: field validation *)

(** The outcome of running one field of a serializer on the payload: the
    key is left out of [validated_data], it is put there with a value, or
    the field reports an error. *)
Inductive Checked (A : Type) : Type :=
  | Skipped
  | Passed (a : A)
  | Failed.
Arguments Skipped {A}.
Arguments Passed {A} a.
Arguments Failed {A}.

Definition failed {A} (c : Checked A) : bool :=
  match c with Failed => true | _ => false end.
Definition value_of {A} (c : Checked A) : option A :=
  match c with Passed a => Some a | _ => None end.

(** A field that does not take [null].  [check] stands for the field's
    conversion, its validators and the serializer's [validate_<field>]
    method, in that order; [None] is a validation error. *)
Definition run_field {A} (required partial : bool) (check : A → option A)
    (x : Field A) : Checked A :=
  match x with
  | Absent => if partial then Skipped else if required then Failed else Skipped
  | Null => Failed
  | Given a => match check a with Some b => Passed b | None => Failed end
  end.

(** A field with [allow_null=True]. *)
Definition run_nullable_field {A} (check : A → option A) (x : Field A)
  : Checked (option A) :=
  match x with
  | Absent => Skipped
  | Null => Passed None
  | Given a => match check a with Some b => Passed (Some b) | None => Failed end
  end.

Definition error_key {A} (key : string) (c : Checked A) : list string :=
  if failed c then [key] else [].

(** [len(value)] of a string held as its UTF-8 bytes: the bytes that
    start a character, those not of the form [10xxxxxx]. *)
Fixpoint char_length (s : string) : nat :=
  match s with
  | EmptyString => 0
  | String (Ascii.Ascii _ _ _ _ _ _ b6 b7) rest =>
      ((if (b7 && negb b6)%bool then 0 else 1) + char_length rest)%nat
  end.

(** ['\x00' in value], which [ProhibitNullCharactersValidator] refuses. *)
Fixpoint has_null_character (s : string) : bool :=
  match s with
  | EmptyString => false
  | String a rest => (Ascii.eqb a Ascii.zero || has_null_character rest)%bool
  end.

(** The characters [str.isspace] accepts, in UTF-8: U+0009 to U+000D,
    U+001C to U+0020, U+0085, U+00A0, U+1680, U+2000 to U+200A, U+2028,
    U+2029, U+202F, U+205F and U+3000. *)
Definition whitespace : list string :=
  List.map (λ bytes, String.string_of_list_ascii (List.map Ascii.ascii_of_nat bytes))
    [ [9]; [10]; [11]; [12]; [13]; [28]; [29]; [30]; [31]; [32];
      [194; 133]; [194; 160]; [225; 154; 128];
      [226; 128; 128]; [226; 128; 129]; [226; 128; 130]; [226; 128; 131];
      [226; 128; 132]; [226; 128; 133]; [226; 128; 134]; [226; 128; 135];
      [226; 128; 136]; [226; 128; 137]; [226; 128; 138];
      [226; 128; 168]; [226; 128; 169]; [226; 128; 175];
      [226; 129; 159]; [227; 128; 128] ]%nat.

(** [s] without its prefix [p], if it has it. *)
Fixpoint removeprefix (p s : string) : option string :=
  match p, s with
  | EmptyString, _ => Some s
  | String a p', String b s' =>
      if Ascii.eqb a b then removeprefix p' s' else None
  | String _ _, EmptyString => None
  end.

(** [s] without one leading character of [chars], if it starts with one. *)
Fixpoint drop_one (chars : list string) (s : string) : option string :=
  match chars with
  | [] => None
  | p :: chars' =>
      match removeprefix p s with
      | Some rest => Some rest
      | None => drop_one chars' s
      end
  end.

(** [fuel] leading characters of [chars] at most are dropped. *)
Fixpoint lstrip_upto (fuel : nat) (chars : list string) (s : string) : string :=
  match fuel with
  | O => s
  | S fuel' =>
      match drop_one chars s with
      | Some rest => lstrip_upto fuel' chars rest
      | None => s
      end
  end.

(** [str.strip()]: each step drops a byte at least, so the length of
    the string is fuel enough. *)
Definition strip (s : string) : string :=
  let s := lstrip_upto (String.length s) whitespace s in
  String.rev
    (lstrip_upto (String.length s) (List.map String.rev whitespace)
                 (String.rev s)).

(** [CharField(max_length=n)]: the value is stripped of the white space
    around it; a blank one is refused unless the model field has
    [blank=True], and is the empty string otherwise, the validators
    left out; null characters are refused, and the length is counted in
    characters. *)
Definition char_field (max_length : nat) (allow_blank : bool) (s : string)
  : option string :=
  let s := strip s in
  if String.eqb s "" then (if allow_blank then Some "" else None)
  else if has_null_character s then None
  else if (char_length s <=? max_length)%nat then Some s else None.

(** A [CharField] with no length bound, as a [TextField] gives. *)
Definition text_field (allow_blank : bool) (s : string) : option string :=
  let s := strip s in
  if String.eqb s "" then (if allow_blank then Some "" else None)
  else if has_null_character s then None else Some s.

Definition choice_field (choices : list string) (s : string) : option string :=
  if existsb (String.eqb s) choices then Some s else None.

(** [DecimalField.validate_precision] followed by [quantize]. *)
Definition decimal_field (max_digits decimal_places : Z) (v : Decimal.t)
  : option Decimal.t :=
  let n := Decimal.digits v in
  let e := Decimal.exponent v in
  let '(total_digits, whole_digits, places) :=
    if 0 <=? e then (n + e, n + e, 0)
    else if Z.abs e <? n then (n, n - Z.abs e, Z.abs e)
    else (Z.abs e, 0, Z.abs e) in
  if (max_digits <? total_digits) then None
  else if (decimal_places <? places) then None
  else if (max_digits - decimal_places <? whole_digits) then None
  else Some (Decimal.quantize v).

(** [MinValueValidator(limit)] *)
Definition MinValueValidator (limit v : Decimal.t) : option Decimal.t :=
  if Decimal.ltb v limit then None else Some v.

Definition and_then {A} (f g : A → option A) (a : A) : option A :=
  match f a with Some b => g b | None => None end.

(** ** serializers.py: crops *)

Module CropCreateUpdateSerializer.
(** The keys of the payload the serializer reads:
    [Meta.fields = ['name', 'crop_type', 'quantity', 'unit',
    'planting_date', 'expected_harvest_date', 'status', 'notes']]. *)
Record data := mk_data {
  name : Field string;
  crop_type : Field string;
  quantity : Field Decimal.t;
  unit : Field string;
  planting_date : Field Date.t;
  expected_harvest_date : Field Date.t;
  status : Field string;
  notes : Field string
}.

(** [validated_data]: [None] where the key is not in the dictionary. *)
Record validated_data := mk_validated {
  v_name : option string;
  v_crop_type : option string;
  v_quantity : option Decimal.t;
  v_unit : option string;
  v_planting_date : option (option Date.t);
  v_expected_harvest_date : option (option Date.t);
  v_status : option string;
  v_notes : option (option string)
}.

Definition validate_quantity (value : Decimal.t) : option Decimal.t :=
  if Decimal.leb value Decimal.zero then None else Some value.

(** The model's [DecimalField(max_digits=10, decimal_places=2,
    validators=[MinValueValidator(Decimal('0.01'))])], then
    [validate_quantity]. *)
Definition quantity_field : Decimal.t → option Decimal.t :=
  and_then (decimal_field 10 2)
    (and_then (MinValueValidator Decimal.cent) validate_quantity).

(** [Serializer.run_validation]: the error keys, or the validated
    data. *)
Definition run_validation (partial : bool) (d : data)
  : list string + validated_data :=
  let c_name := run_field true partial (char_field 100 false) (name d) in
  let c_type :=
    run_field true partial (choice_field Crop.CROP_TYPES) (crop_type d) in
  let c_quantity := run_field true partial quantity_field (quantity d) in
  let c_unit := run_field false partial (char_field 20 false) (unit d) in
  let c_planting := run_nullable_field Some (planting_date d) in
  let c_harvest := run_nullable_field Some (expected_harvest_date d) in
  let c_status :=
    run_field false partial (choice_field Crop.CROP_STATUS) (status d) in
  let c_notes := run_nullable_field (text_field true) (notes d) in
  match error_key "name" c_name ++ error_key "crop_type" c_type
        ++ error_key "quantity" c_quantity ++ error_key "unit" c_unit
        ++ error_key "planting_date" c_planting
        ++ error_key "expected_harvest_date" c_harvest
        ++ error_key "status" c_status ++ error_key "notes" c_notes with
  | [] =>
      inr (mk_validated (value_of c_name) (value_of c_type)
             (value_of c_quantity) (value_of c_unit) (value_of c_planting)
             (value_of c_harvest) (value_of c_status) (value_of c_notes))
  | errors => inl errors
  end.

Definition is_valid (partial : bool) (d : data) : bool :=
  match run_validation partial d with inr _ => true | inl _ => false end.

(** [ModelSerializer.create] with the [farmer] keyword that [save]
    adds: the row that [Crop.objects.create] inserts from the validated
    data and the farmer.  The model's defaults fill the keys left out; a row
    without a quantity is refused by the column's NOT NULL. *)
Definition create (v : validated_data) (farmer : Farmer.t) : M Crop.t :=
  let! d := objects in
  let! t := now in
  match v_quantity v with
  | None => raise DatabaseError
  | Some q =>
      let c :=
        Crop.mk (DB.crop_seq d) (Farmer.id farmer)
          (default "" (v_name v)) (default "" (v_crop_type v)) q
          (default "kg" (v_unit v))
          (default None (v_planting_date v))
          (default None (v_expected_harvest_date v))
          (default "planted" (v_status v))
          (default None (v_notes v)) t t in
      do! execute (λ d,
            DB.mk (DB.users d) (DB.farmers d) (DB.crops d ++ [c])
              (DB.tokens d) (DB.user_seq d) (DB.farmer_seq d)
              (DB.crop_seq d + 1)) in
      ret c
  end.

(** [ModelSerializer.update]: every key of [validated_data] is set on
    the instance, which is then saved. *)
Definition update (instance : Crop.t) (v : validated_data) : M Crop.t :=
  let! t := now in
  let c :=
    Crop.mk (Crop.id instance) (Crop.farmer_id instance)
      (default (Crop.name instance) (v_name v))
      (default (Crop.crop_type instance) (v_crop_type v))
      (default (Crop.quantity instance) (v_quantity v))
      (default (Crop.unit instance) (v_unit v))
      (default (Crop.planting_date instance) (v_planting_date v))
      (default (Crop.expected_harvest_date instance)
         (v_expected_harvest_date v))
      (default (Crop.status instance) (v_status v))
      (default (Crop.notes instance) (v_notes v))
      (Crop.created_at instance) t in
  do! execute (DB.set_crops (orm.save_row Crop.id c)) in
  ret c.
End CropCreateUpdateSerializer.

(** ** Responses and the dispatcher *)

(** Response bodies.  Where a view renders model instances through a
    serializer, the body keeps the instances handed to that serializer. *)
Inductive Body : Type :=
  | Detail (e : Exn)
  | Errors (keys : list string)
  | Error (message : string)
  | Message (message : string)
  | NoContent
  | CropSerializer_data (c : Crop.t)
  | CropSerializer_many (cs : list Crop.t)
  | CropCreateUpdateSerializer_data (c : Crop.t)
  | FarmerSerializer_data (f : Farmer.t)
  | Registered (message : string) (user : User.t) (token : string)
  | AdminDashboard (total_farmers total_crops : nat)
      (crops_by_type : gmap string nat) (recent_crops : list Crop.t)
  | Statistics (crops_by_farmer : list (string * string * nat))
      (crops_by_month : list (string * nat)).

Record Response := mkResponse { status : Status; body : Body }.

(** The exception handler: the response an exception raised by a handler
    turns into. *)
Definition exception_response (e : Exn) : Response :=
  mkResponse
    match e with
    | Http404 => HTTP_404_NOT_FOUND
    | NotAuthenticated => HTTP_401_UNAUTHORIZED
    | PermissionDenied => HTTP_403_FORBIDDEN
    | MethodNotAllowed => HTTP_405_METHOD_NOT_ALLOWED
    | ValidationError _ => HTTP_400_BAD_REQUEST
    | DatabaseError => HTTP_500_INTERNAL_SERVER_ERROR
    | ValueError => HTTP_500_INTERNAL_SERVER_ERROR
    end
    match e with
    | ValidationError keys => Errors keys
    | _ => Detail e
    end.

(** One request served.  Every write statement commits on its own; only
    when the project's settings turn [ATOMIC_REQUESTS] on (Django's
    default is off) does the request run in one transaction, which an
    exception rolls back and a returned response commits. *)
Definition as_view (ATOMIC_REQUESTS : bool) (handler : M Response)
  : World → Response * World :=
  λ w, match handler w with
       | (Val r, w') => (r, w')
       | (Raise e, w') =>
           (exception_response e,
            if ATOMIC_REQUESTS then mkWorld (db w) (clock w') (faults w')
            else w')
       end.

(** [request.user] inside a handler, which runs after the view's
    permission check. *)
Definition request_user {D} (request : Request.t D) : M User.t :=
  match Request.user request with
  | Some u => ret u
  | None => raise NotAuthenticated
  end.

(** Python's truth value of a string and of a number. *)
Definition str_truthy (s : string) : bool := negb (String.eqb s "").
Definition int_truthy (n : Z) : bool := negb (n =? 0).

(** Python's truth value of a JSON value. *)
Definition truthy (v : JSON) : bool :=
  match v with
  | JInt n => int_truthy n
  | JFloat mantissa _ => int_truthy mantissa
  | JInfinity => true
  | JStr s => str_truthy s
  | JBool b => b
  | JCompound empty => negb empty
  end.

(** Python's [int] on a string, [None] where it raises [ValueError]. *)
Class Python := {
  int_of_str : string → option Z
}.

(** [int(value)], as a lookup on an integer key prepares its value:
    [None] where [int] raises ([ValueError], [TypeError] or, on an
    infinity, [OverflowError]).  A float is cut towards zero. *)
Definition prep_key `{Python} (v : JSON) : option Z :=
  match v with
  | JInt n => Some n
  | JFloat mantissa exponent =>
      Some (if 0 <=? exponent then mantissa * 2 ^ exponent
            else Z.quot mantissa (2 ^ (- exponent)))
  | JInfinity => None
  | JStr s => int_of_str s
  | JBool b => Some (if b then 1 else 0)
  | JCompound _ => None
  end.

(** ** views.py: crops *)

(** The JSON body of a request to the crop endpoints: the keys of
    [CropCreateUpdateSerializer] and the two keys that name a farmer. *)
Record CropPayload := mkCropPayload {
  farmer_id : Field JSON;
  farmer : Field JSON;
  fields : CropCreateUpdateSerializer.data
}.

Module CropListCreateView.
Definition get (request : Request.t CropPayload) : M Response :=
  let! user := request_user request in
  let! d := objects in
  let! crops :=
    if User.is_admin user
    then ret (List.map orm.crop (orm.crops_select_related d))
    else
      let! farmer := get_object_or_404 (orm.farmer_by_user d user) in
      ret (orm.crops_of_farmer d farmer) in
  let crop_type := QueryDict_get "crop_type" (Request.query_params request) in
  let status_filter := QueryDict_get "status" (Request.query_params request) in
  let crops :=
    match crop_type with
    | Some t =>
        if str_truthy t
        then List.filter (λ c, String.eqb (Crop.crop_type c) t) crops
        else crops
    | None => crops
    end in
  let crops :=
    match status_filter with
    | Some s =>
        if str_truthy s
        then List.filter (λ c, String.eqb (Crop.status c) s) crops
        else crops
    | None => crops
    end in
  ret (mkResponse HTTP_200_OK (CropSerializer_many crops)).

(** The second half of [post], once the farmer is resolved. *)
Definition post_for (request : Request.t CropPayload) (farmer : Farmer.t)
  : M Response :=
  match CropCreateUpdateSerializer.run_validation false
          (fields (Request.data request)) with
  | inr v =>
      let! crop := CropCreateUpdateSerializer.create v farmer in
      ret (mkResponse HTTP_201_CREATED (CropSerializer_data crop))
  | inl errors => ret (mkResponse HTTP_400_BAD_REQUEST (Errors errors))
  end.

(** [get_object_or_404(Farmer, id=farmer_id)]: a value that is no
    number is refused by the lookup with an exception of its own, which
    [get_object_or_404] does not catch.  Keys are taken to fit the
    column: what a database answers to a number beyond 64 bits is its
    own matter. *)
Definition farmer_or_404 `{Python} (d : DB.t) (farmer_id : JSON) : M Farmer.t :=
  match prep_key farmer_id with
  | Some pk => get_object_or_404 (orm.farmer_by_id d pk)
  | None => raise ValueError
  end.

Definition post `{Python} (request : Request.t CropPayload) : M Response :=
  let! user := request_user request in
  let! d := objects in
  if User.is_farmer user then
    let! farmer := get_object_or_404 (orm.farmer_by_user d user) in
    post_for request farmer
  else
    match farmer_id (Request.data request) with
    | Given v =>
        if truthy v then
          let! farmer := farmer_or_404 d v in
          post_for request farmer
        else
          ret (mkResponse HTTP_400_BAD_REQUEST
                 (Error "farmer_id is required for admin"))
    | _ =>
        ret (mkResponse HTTP_400_BAD_REQUEST
               (Error "farmer_id is required for admin"))
    end.

Definition dispatch `{Python} (request : Request.t CropPayload) : M Response :=
  do! check_permissions IsAuthenticated.has_permission request in
  match Request.method request with
  | GET => get request
  | POST => post request
  | _ => raise MethodNotAllowed
  end.
End CropListCreateView.

Module CropDetailView.
Definition queryset (d : DB.t) : list orm.joined :=
  orm.crops_select_related d.

(** [GenericAPIView.get_object]: look the row up by primary key, then
    check the object-level permission. *)
Definition get_object (request : Request.t CropPayload) (pk : Z)
  : M orm.joined :=
  let! d := objects in
  let! obj :=
    get_object_or_404
      (List.find (λ j, Crop.id (orm.crop j) =? pk) (queryset d)) in
  do! check_object_permissions IsCropOwnerOrAdmin.has_object_permission
        request obj in
  ret obj.

(** [RetrieveModelMixin.retrieve], rendered by [CropSerializer]. *)
Definition retrieve (request : Request.t CropPayload) (pk : Z) : M Response :=
  let! obj := get_object request pk in
  ret (mkResponse HTTP_200_OK (CropSerializer_data (orm.crop obj))).

(** [UpdateModelMixin.update]; [get_serializer_class] picks
    [CropCreateUpdateSerializer] for PUT and PATCH. *)
Definition update (partial : bool) (request : Request.t CropPayload)
    (pk : Z) : M Response :=
  let! obj := get_object request pk in
  match CropCreateUpdateSerializer.run_validation partial
          (fields (Request.data request)) with
  | inr v =>
      let! crop := CropCreateUpdateSerializer.update (orm.crop obj) v in
      ret (mkResponse HTTP_200_OK (CropCreateUpdateSerializer_data crop))
  | inl errors => raise (ValidationError errors)
  end.

(** [DestroyModelMixin.destroy] *)
Definition destroy (request : Request.t CropPayload) (pk : Z) : M Response :=
  let! obj := get_object request pk in
  do! execute (orm.delete_crop (orm.crop obj)) in
  ret (mkResponse HTTP_204_NO_CONTENT NoContent).

Definition dispatch (request : Request.t CropPayload) (pk : Z) : M Response :=
  do! check_permissions IsCropOwnerOrAdmin.has_permission request in
  match Request.method request with
  | GET => retrieve request pk
  | PUT => update false request pk
  | PATCH => update true request pk
  | DELETE => destroy request pk
  | POST => raise MethodNotAllowed
  end.
End CropDetailView.

(** ** serializers.py and views.py: registration *)

(** What the views take from Django and its settings: the password
    validators configured in [AUTH_PASSWORD_VALIDATORS], the validators of
    the user model's [username] and [email] fields, [create_user]'s
    normalisation of the two, the password hasher, and the key drawn for
    a new token. *)
Class Django := {
  validate_password : string → bool;
  username_validator : string → bool;
  email_validator : string → bool;
  normalize_username : string → string;
  normalize_email : string → string;
  make_password : string → string;
  generate_key : Z → string
}.

Module UserRegistrationSerializer.
Section with_django.
Context `{Django}.

(** [Meta.fields = ['username', 'email', 'password', 'confirm_password',
    'first_name', 'last_name', 'phone', 'address']] *)
Record data := mk_data {
  username : Field string;
  email : Field string;
  password : Field string;
  confirm_password : Field string;
  first_name : Field string;
  last_name : Field string;
  phone : Field string;
  address : Field string
}.

Record validated_data := mk_validated {
  v_username : option string;
  v_email : option string;
  v_password : option string;
  v_confirm_password : option string;
  v_first_name : option string;
  v_last_name : option string;
  v_phone : option (option string);
  v_address : option (option string)
}.

Definition validate (attrs : validated_data) : option validated_data :=
  if decide (v_password attrs ≠ v_confirm_password attrs) then None
  else Some attrs.

Definition guard (ok : string → bool) (s : string) : option string :=
  if ok s then Some s else None.

(** The [UniqueValidator] a model serializer puts on a unique column. *)
Definition unique_username (d : DB.t) (s : string) : bool :=
  negb (existsb (λ u, String.eqb (User.username u) s) (DB.users d)).

Definition run_validation (db : DB.t) (d : data)
  : list string + validated_data :=
  let c_username :=
    run_field true false
      (and_then (char_field 150 false)
         (and_then (guard username_validator) (guard (unique_username db))))
      (username d) in
  let c_email :=
    run_field false false
      (and_then (char_field 254 true)
         (guard (λ s, String.eqb s "" || email_validator s)))
      (email d) in
  let c_password :=
    run_field true false
      (and_then (text_field false) (guard validate_password)) (password d) in
  let c_confirm := run_field true false (text_field false) (confirm_password d) in
  let c_first := run_field false false (char_field 150 true) (first_name d) in
  let c_last := run_field false false (char_field 150 true) (last_name d) in
  let c_phone := run_nullable_field (char_field 15 true) (phone d) in
  let c_address := run_nullable_field (text_field true) (address d) in
  match error_key "username" c_username ++ error_key "email" c_email
        ++ error_key "password" c_password
        ++ error_key "confirm_password" c_confirm
        ++ error_key "first_name" c_first ++ error_key "last_name" c_last
        ++ error_key "phone" c_phone ++ error_key "address" c_address with
  | [] =>
      match validate
              (mk_validated (value_of c_username) (value_of c_email)
                 (value_of c_password) (value_of c_confirm)
                 (value_of c_first) (value_of c_last) (value_of c_phone)
                 (value_of c_address)) with
      | Some attrs => inr attrs
      | None => inl ["non_field_errors"]
      end
  | errors => inl errors
  end.

(** [User.objects.create_user] on the validated data without
    [confirm_password]; the role is the model's default. *)
Definition create_user (v : validated_data) : M User.t :=
  let! d := objects in
  let! t := now in
  let user :=
    User.mk (DB.user_seq d)
      (normalize_username (default "" (v_username v)))
      (make_password (default "" (v_password v)))
      (normalize_email (default "" (v_email v)))
      (default "" (v_first_name v)) (default "" (v_last_name v))
      "farmer"
      (default None (v_phone v)) (default None (v_address v)) t t in
  do! execute (λ d,
        DB.mk (DB.users d ++ [user]) (DB.farmers d) (DB.crops d)
          (DB.tokens d) (DB.user_seq d + 1) (DB.farmer_seq d)
          (DB.crop_seq d)) in
  ret user.

(** [Farmer.objects.create(user=user)] *)
Definition create_farmer (user : User.t) : M Farmer.t :=
  let! d := objects in
  let! t := now in
  let farmer := Farmer.mk (DB.farmer_seq d) (User.id user) None None None t t in
  do! execute (λ d,
        DB.mk (DB.users d) (DB.farmers d ++ [farmer]) (DB.crops d)
          (DB.tokens d) (DB.user_seq d) (DB.farmer_seq d + 1)
          (DB.crop_seq d)) in
  ret farmer.

Definition create (v : validated_data) : M User.t :=
  let! user := create_user v in
  if String.eqb (User.role user) "farmer" then
    do! create_farmer user in
    ret user
  else ret user.
End with_django.
End UserRegistrationSerializer.

(** [Token.objects.get_or_create(user=user)] *)
Definition Token_get_or_create `{Django} (user : User.t) : M Token.t :=
  let! d := objects in
  match List.find (λ k, Token.user_id k =? User.id user) (DB.tokens d) with
  | Some token => ret token
  | None =>
      let token := Token.mk (generate_key (User.id user)) (User.id user) in
      do! execute (DB.set_tokens (λ l, l ++ [token])) in
      ret token
  end.

Module RegisterView.
Definition post `{Django}
    (request : Request.t UserRegistrationSerializer.data) : M Response :=
  let! d := objects in
  match UserRegistrationSerializer.run_validation d (Request.data request) with
  | inr v =>
      let! user := UserRegistrationSerializer.create v in
      let! token := Token_get_or_create user in
      ret (mkResponse HTTP_201_CREATED
             (Registered "User created successfully" user (Token.key token)))
  | inl errors => ret (mkResponse HTTP_400_BAD_REQUEST (Errors errors))
  end.
End RegisterView.

(** ** serializers.py and views.py: farmer profiles *)

Module FarmerSerializer.
(** The writable keys of [Meta.fields]; [user], [full_name],
    [crops_count], [id] and the timestamps are read-only. *)
Record data := mk_data {
  farm_name : Field string;
  farm_size : Field Decimal.t;
  location : Field string
}.

Record validated_data := mk_validated {
  v_farm_name : option (option string);
  v_farm_size : option (option Decimal.t);
  v_location : option (option string)
}.

(** [DecimalField(max_digits=10, decimal_places=2,
    validators=[MinValueValidator(Decimal('0.01'))])] *)
Definition farm_size_field : Decimal.t → option Decimal.t :=
  and_then (decimal_field 10 2) (MinValueValidator Decimal.cent).

Definition run_validation (d : data) : list string + validated_data :=
  let c_name := run_nullable_field (char_field 200 true) (farm_name d) in
  let c_size := run_nullable_field farm_size_field (farm_size d) in
  let c_location := run_nullable_field (char_field 200 true) (location d) in
  match error_key "farm_name" c_name ++ error_key "farm_size" c_size
        ++ error_key "location" c_location with
  | [] => inr (mk_validated (value_of c_name) (value_of c_size)
                 (value_of c_location))
  | errors => inl errors
  end.

(** [ModelSerializer.update] *)
Definition update (instance : Farmer.t) (v : validated_data) : M Farmer.t :=
  let! t := now in
  let f :=
    Farmer.mk (Farmer.id instance) (Farmer.user_id instance)
      (default (Farmer.farm_name instance) (v_farm_name v))
      (default (Farmer.farm_size instance) (v_farm_size v))
      (default (Farmer.location instance) (v_location v))
      (Farmer.created_at instance) t in
  do! execute (DB.set_farmers (orm.save_row Farmer.id f)) in
  ret f.
End FarmerSerializer.

(** The JSON body of [PUT /profile/farmer/]: the five user keys the view
    copies and the keys of [FarmerSerializer]. *)
Record ProfilePayload := mkProfilePayload {
  first_name : Field string;
  last_name : Field string;
  email : Field string;
  phone : Field string;
  address : Field string;
  profile : FarmerSerializer.data
}.

Module FarmerProfileView.
(** [setattr(request.user, field, request.data[field])] for a column
    that is NOT NULL: [None] when the payload puts [null] there. *)
Definition set_required (old : string) (x : Field string) : option string :=
  match x with
  | Absent => Some old
  | Null => None
  | Given s => Some s
  end.

Definition set_nullable (old : option string) (x : Field string)
  : option string :=
  match x with
  | Absent => old
  | Null => None
  | Given s => Some s
  end.

(** The loop over [user_fields]: every key of the payload that names one
    of the five columns is copied onto [request.user], unchecked. *)
Definition copy_user_fields (user : User.t) (p : ProfilePayload)
  : option User.t :=
  match set_required (User.first_name user) (first_name p),
        set_required (User.last_name user) (last_name p),
        set_required (User.email user) (email p) with
  | Some first, Some last, Some mail =>
      Some (User.mk (User.id user) (User.username user) (User.password user)
              mail first last (User.role user)
              (set_nullable (User.phone user) (phone p))
              (set_nullable (User.address user) (address p))
              (User.created_at user) (User.updated_at user))
  | _, _, _ => None
  end.

(** [auto_now] on [updated_at]. *)
Definition touch (t : DateTime.t) (u : User.t) : User.t :=
  User.mk (User.id u) (User.username u) (User.password u) (User.email u)
    (User.first_name u) (User.last_name u) (User.role u) (User.phone u)
    (User.address u) (User.created_at u) t.

(** The loop, then [request.user.save()]; the database refuses a row
    with [null] in a NOT NULL column. *)
Definition update_user (user : User.t) (p : ProfilePayload) : M User.t :=
  match copy_user_fields user p with
  | Some u =>
      let! t := now in
      do! execute (DB.set_users (orm.save_row User.id (touch t u))) in
      ret (touch t u)
  | None => raise DatabaseError
  end.

Definition get (request : Request.t ProfilePayload) : M Response :=
  let! user := request_user request in
  let! d := objects in
  let! farmer := get_object_or_404 (orm.farmer_by_user d user) in
  ret (mkResponse HTTP_200_OK (FarmerSerializer_data farmer)).

Definition put (request : Request.t ProfilePayload) : M Response :=
  let! user := request_user request in
  let! d := objects in
  let! farmer := get_object_or_404 (orm.farmer_by_user d user) in
  do! update_user user (Request.data request) in
  match FarmerSerializer.run_validation (profile (Request.data request)) with
  | inr v =>
      let! farmer := FarmerSerializer.update farmer v in
      ret (mkResponse HTTP_200_OK (FarmerSerializer_data farmer))
  | inl errors => ret (mkResponse HTTP_400_BAD_REQUEST (Errors errors))
  end.

Definition dispatch (request : Request.t ProfilePayload) : M Response :=
  do! check_permissions IsFarmerUser.has_permission request in
  match Request.method request with
  | GET => get request
  | PUT => put request
  | _ => raise MethodNotAllowed
  end.
End FarmerProfileView.

Module FarmerDetailView.
(** [Farmer.objects.select_related('user').all()] *)
Definition queryset (d : DB.t) : list (Farmer.t * User.t) :=
  omap (λ f, match orm.user_by_id d (Farmer.user_id f) with
             | Some u => Some (f, u)
             | None => None
             end) (DB.farmers d).

Definition get_object (pk : Z) : M (Farmer.t * User.t) :=
  let! d := objects in
  get_object_or_404 (List.find (λ fu, Farmer.id (fst fu) =? pk) (queryset d)).

Definition destroy (request : Request.t unit) (pk : Z) : M Response :=
  let! obj := get_object pk in
  let farmer := fst obj in
  let user := snd obj in
  do! execute (orm.delete_farmer farmer) in
  do! execute (orm.delete_user user) in
  ret (mkResponse HTTP_204_NO_CONTENT (Message "Farmer deleted successfully")).

Definition dispatch_delete (request : Request.t unit) (pk : Z) : M Response :=
  do! check_permissions IsAdminUser.has_permission request in
  destroy request pk.
End FarmerDetailView.

(** ** views.py: dashboard and statistics *)

(** [values(key).annotate(count=Count(...))]: one row per distinct key,
    with the number of rows that carry it.  The model's default ordering
    does not enter a grouped query (Django 3.1 and later). *)
Definition annotate_count {K} `{EqDecision K} (keys : list K) : list (K * nat) :=
  List.map (λ k, (k, length (List.filter (λ x, bool_decide (x = k)) keys)))
           (remove_dups keys).

(** Python's [dict] of a list of pairs: a later pair overwrites an
    earlier one with the same key. *)
Definition dict (l : list (string * nat)) : gmap string nat :=
  list_to_map (reverse l).

Module AdminDashboardView.
Definition get (request : Request.t unit) : M Response :=
  let! d := objects in
  let total_farmers := length (DB.farmers d) in
  let total_crops := length (DB.crops d) in
  let crops_by_type :=
    dict (annotate_count (List.map Crop.crop_type (DB.crops d))) in
  let recent_crops := take 10 (orm.crops_select_related d) in
  ret (mkResponse HTTP_200_OK
         (AdminDashboard total_farmers total_crops crops_by_type
            (List.map orm.crop recent_crops))).

Definition dispatch (request : Request.t unit) : M Response :=
  do! check_permissions IsAdminUser.has_permission request in
  match Request.method request with
  | GET => get request
  | _ => raise MethodNotAllowed
  end.
End AdminDashboardView.

(** The decimal digits of [n], the last [width] of them, padded with
    zeros. *)
Fixpoint zero_padded (width : nat) (n : Z) : string :=
  match width with
  | O => ""
  | S w =>
      zero_padded w (n / 10)
      +:+ String (Ascii.ascii_of_nat (48 + Z.to_nat (n mod 10))) ""
  end.

(** MySQL's [date_format(created_at, '%Y-%m')] *)
Definition date_format (t : DateTime.t) : string :=
  zero_padded 4 (DateTime.year t) +:+ "-" +:+ zero_padded 2 (DateTime.month t).

(** [order_by('-count')] *)
Definition by_count_desc {K} (a b : K * nat) : Prop :=
  Is_true (snd b <=? snd a)%nat.
(** [order_by('month')] *)
Definition by_month (a b : string * nat) : Prop :=
  Is_true (String.leb (fst a) (fst b)).

Definition crop_statistics (request : Request.t unit) : M Response :=
  do! check_permissions IsAdminUser.has_permission request in
  match Request.method request with
  | GET =>
      let! d := objects in
      let joined := omap (orm.join d) (DB.crops d) in
      let crops_by_farmer :=
        take 10
          (merge_sort by_count_desc
             (annotate_count
                (List.map (λ j, (User.first_name (orm.farmer_user j),
                                 User.last_name (orm.farmer_user j)))
                   joined))) in
      let crops_by_month :=
        merge_sort by_month
          (annotate_count
             (List.map (λ c, date_format (Crop.created_at c)) (DB.crops d))) in
      ret (mkResponse HTTP_200_OK (Statistics crops_by_farmer crops_by_month))
  | _ => raise MethodNotAllowed
  end.

(** ** A small datastore to run the views on *)

Module Sample.
Definition t0 : DateTime.t := DateTime.mk 2024 1 5 0.
Definition t1 : DateTime.t := DateTime.mk 2024 2 5 0.
Definition t2 : DateTime.t := DateTime.mk 2024 2 7 10.

Definition root : User.t :=
  User.mk 1 "root" "x" "" "" "" "admin" None None t0 t0.
Definition alice : User.t :=
  User.mk 2 "alice" "x" "" "Ann" "Lee" "farmer" None None t0 t0.
Definition bob : User.t :=
  User.mk 3 "bob" "x" "" "Ann" "Lee" "farmer" None None t0 t0.

Definition alice_farm : Farmer.t := Farmer.mk 1 2 None None None t0 t0.
Definition bob_farm : Farmer.t := Farmer.mk 2 3 None None None t0 t0.

Definition maize : Crop.t :=
  Crop.mk 1 1 "maize" "cereals" (Decimal.mk 100 (-2)) "kg" None None
    "planted" None t0 t0.
Definition beans : Crop.t :=
  Crop.mk 2 2 "beans" "legumes" (Decimal.mk 100 (-2)) "kg" None None
    "planted" None t1 t1.
Definition wheat : Crop.t :=
  Crop.mk 3 1 "wheat" "cereals" (Decimal.mk 100 (-2)) "kg" None None
    "growing" None t2 t2.

Definition store : DB.t :=
  DB.mk [root; alice; bob] [alice_farm; bob_farm] [maize; beans; wheat] [] 4 3 4.

(** The store, with a datastore that never fails. *)
Definition world : World := mkWorld store t2 [].
(** The same, with a datastore that takes one write and refuses the next. *)
Definition failing_world : World := mkWorld store t2 [false; true].
Definition empty_world : World := mkWorld DB.empty t0 [].

Definition no_crop_fields : CropCreateUpdateSerializer.data :=
  CropCreateUpdateSerializer.mk_data
    Absent Absent Absent Absent Absent Absent Absent Absent.

(** A crop payload with the given quantity that also names farmer 2. *)
Definition rice (q : Decimal.t) (farmer_id : Field JSON) : CropPayload :=
  mkCropPayload farmer_id (Given (JInt 2))
    (CropCreateUpdateSerializer.mk_data (Given "rice") (Given "cereals")
       (Given q) Absent Absent Null Absent Absent).

Definition request {D} (m : Method) (u : User.t) (d : D) : Request.t D :=
  Request.mk m (Some u) [] d.

Definition django : Django := {|
  validate_password s := (8 <=? String.length s)%nat;
  username_validator _ := true;
  email_validator _ := true;
  normalize_username s := s;
  normalize_email s := s;
  make_password s := ("hash:" +:+ s)%string;
  generate_key _ := "key"
|}.

(** [int] on the strings of decimal digits. *)
Fixpoint digits_value (acc : Z) (s : string) : option Z :=
  match s with
  | EmptyString => Some acc
  | String a rest =>
      let n := Z.of_nat (Ascii.nat_of_ascii a) in
      if ((48 <=? n) && (n <=? 57))%bool
      then digits_value (10 * acc + (n - 48)) rest
      else None
  end.

Definition python : Python := {|
  int_of_str s := if String.eqb s "" then None else digits_value 0 s
|}.

(** A profile update that renames the caller and asks for a farm of
    size zero. *)
Definition rename_and_shrink : ProfilePayload :=
  mkProfilePayload (Given "Zed") Absent Absent Absent Absent
    (FarmerSerializer.mk_data Absent (Given (Decimal.mk 0 0)) Absent).

Definition carol : UserRegistrationSerializer.data :=
  UserRegistrationSerializer.mk_data (Given "carol") Absent
    (Given "correct horse") (Given "correct horse")
    (Given "Carol") Absent Absent Absent.
End Sample.

(** ** permissions.py: the general owner check *)

(** The instances an object-level check can be handed, each with the
    related rows its attributes load. *)
Inductive Instance : Type :=
  | FarmerInstance (f : Farmer.t) (user : User.t)
  | CropInstance (j : orm.joined)
  | UserInstance (u : User.t)
  | TokenInstance (k : Token.t) (user : User.t).

Module IsOwnerOrAdmin.
Definition has_permission {D} (request : Request.t D) : bool :=
  match Request.user request with
  | Some _ => true
  | None => false
  end.

(** [hasattr(obj, 'user')] holds of a farmer profile and of a token,
    [hasattr(obj, 'farmer')] of a crop; a user row has neither
    attribute. *)
Definition has_object_permission {D} (request : Request.t D)
    (obj : Instance) : bool :=
  match Request.user request with
  | Some u =>
      if User.is_admin u then true
      else
        match obj with
        | FarmerInstance _ user => User.eqb user u
        | TokenInstance _ user => User.eqb user u
        | CropInstance j => User.eqb (orm.farmer_user j) u
        | UserInstance _ => false
        end
  | None => false
  end.
End IsOwnerOrAdmin.

(** ** views.py: logout *)

(** [try: ... except: pass] around a block. *)
Definition try_pass (block : M unit) : M unit :=
  λ w, match block w with
       | (Raise _, w') => (Val (), w')
       | done => done
       end.

Module LogoutView.
(** [request.user.auth_token.delete()]: nothing to delete when the user
    has no token, where the accessor raises. *)
Definition delete_auth_token (request : Request.t unit) : M unit :=
  match Request.user request with
  | Some user =>
      let! d := objects in
      match List.find (λ k, Token.user_id k =? User.id user) (DB.tokens d) with
      | Some token =>
          execute (DB.set_tokens
                     (List.filter
                        (λ k, negb (String.eqb (Token.key k) (Token.key token)))))
      | None => raise Http404
      end
  | None => raise NotAuthenticated
  end.

(** The session that [logout(request)] flushes is not part of the
    datastore. *)
Definition post (request : Request.t unit) : M Response :=
  do! try_pass (delete_auth_token request) in
  ret (mkResponse HTTP_200_OK (Message "Logout successful")).

Definition dispatch (request : Request.t unit) : M Response :=
  do! check_permissions IsAuthenticated.has_permission request in
  match Request.method request with
  | POST => post request
  | _ => raise MethodNotAllowed
  end.
End LogoutView.

(** ** views.py: the farmer's dashboard *)

Module FarmerDashboardView.
(** The [data] dictionary of the response. *)
Record data := mk_data {
  total_crops : nat;
  crops_by_type : gmap string nat;
  crops_by_status : gmap string nat;
  recent_crops : list Crop.t
}.

Definition get {D} (request : Request.t D) : M data :=
  let! user := request_user request in
  let! d := objects in
  let! farmer := get_object_or_404 (orm.farmer_by_user d user) in
  let farmer_crops := orm.crops_of_farmer d farmer in
  ret (mk_data
         (length farmer_crops)
         (dict (annotate_count (List.map Crop.crop_type farmer_crops)))
         (dict (annotate_count (List.map Crop.status farmer_crops)))
         (take 5 (merge_sort Crop.newest_first farmer_crops))).

Definition dispatch {D} (request : Request.t D) : M data :=
  do! check_permissions IsFarmerUser.has_permission request in
  match Request.method request with
  | GET => get request
  | _ => raise MethodNotAllowed
  end.
End FarmerDashboardView.

(** ** serializers.py and views.py: the caller's own user record *)

Module UserSerializer.
(** The writable keys of [Meta.fields]; [id], [username], [role] and
    [date_joined] are read-only. *)
Record data := mk_data {
  email : Field string;
  first_name : Field string;
  last_name : Field string;
  phone : Field string;
  address : Field string
}.

Record validated_data := mk_validated {
  v_email : option string;
  v_first_name : option string;
  v_last_name : option string;
  v_phone : option (option string);
  v_address : option (option string)
}.

Definition run_validation `{Django} (partial : bool) (d : data)
  : list string + validated_data :=
  let c_email :=
    run_field false partial
      (and_then (char_field 254 true)
         (λ s, if (String.eqb s "" || email_validator s)%bool
               then Some s else None))
      (email d) in
  let c_first := run_field false partial (char_field 150 true) (first_name d) in
  let c_last := run_field false partial (char_field 150 true) (last_name d) in
  let c_phone := run_nullable_field (char_field 15 true) (phone d) in
  let c_address := run_nullable_field (text_field true) (address d) in
  match error_key "email" c_email ++ error_key "first_name" c_first
        ++ error_key "last_name" c_last ++ error_key "phone" c_phone
        ++ error_key "address" c_address with
  | [] => inr (mk_validated (value_of c_email) (value_of c_first)
                 (value_of c_last) (value_of c_phone) (value_of c_address))
  | errors => inl errors
  end.

(** [ModelSerializer.update] *)
Definition update (instance : User.t) (v : validated_data) : M User.t :=
  let! t := now in
  let u :=
    User.mk (User.id instance) (User.username instance)
      (User.password instance)
      (default (User.email instance) (v_email v))
      (default (User.first_name instance) (v_first_name v))
      (default (User.last_name instance) (v_last_name v))
      (User.role instance)
      (default (User.phone instance) (v_phone v))
      (default (User.address instance) (v_address v))
      (User.created_at instance) t in
  do! execute (DB.set_users (orm.save_row User.id u)) in
  ret u.
End UserSerializer.

(** The JSON body of [PUT /profile/]: the keys of [UserSerializer], the
    read-only ones among them. *)
Record UserPayload := mkUserPayload {
  payload_username : Field string;
  payload_role : Field string;
  user_fields : UserSerializer.data
}.

Module UserProfileView.
(** The response: [serializer.data] with status 200, or
    [serializer.errors] with status 400. *)
Inductive reply : Type :=
  | Profile (user : User.t)
  | Rejected (errors : list string).

Definition get (request : Request.t UserPayload) : M reply :=
  let! user := request_user request in
  ret (Profile user).

Definition put `{Django} (request : Request.t UserPayload) : M reply :=
  let! user := request_user request in
  match UserSerializer.run_validation true
          (user_fields (Request.data request)) with
  | inr v =>
      let! user := UserSerializer.update user v in
      ret (Profile user)
  | inl errors => ret (Rejected errors)
  end.

Definition dispatch `{Django} (request : Request.t UserPayload) : M reply :=
  do! check_permissions IsAuthenticated.has_permission request in
  match Request.method request with
  | GET => get request
  | PUT => put request
  | _ => raise MethodNotAllowed
  end.
End UserProfileView.

(** ** serializers.py and views.py: farmers managed by an admin *)

Module FarmerCreateSerializer.
(** [Meta.fields = ['username', 'email', 'password', 'first_name',
    'last_name', 'phone', 'address', 'farm_name', 'farm_size',
    'location']] *)
Record data := mk_data {
  username : Field string;
  email : Field string;
  password : Field string;
  first_name : Field string;
  last_name : Field string;
  phone : Field string;
  address : Field string;
  farm_name : Field string;
  farm_size : Field Decimal.t;
  location : Field string
}.

Record validated_data := mk_validated {
  v_username : option string;
  v_email : option string;
  v_password : option string;
  v_first_name : option string;
  v_last_name : option string;
  v_phone : option string;
  v_address : option string;
  v_farm_name : option (option string);
  v_farm_size : option (option Decimal.t);
  v_location : option (option string)
}.

(** The seven user keys are fields declared on the serializer, so they
    carry no validator of the user model: no length bound and no
    uniqueness check on the username. *)
Definition run_validation `{Django} (d : data) : list string + validated_data :=
  let guard (ok : string → bool) (s : string) :=
    if ok s then Some s else None in
  let c_username := run_field true false (text_field false) (username d) in
  let c_email :=
    run_field true false (and_then (text_field false) (guard email_validator))
      (email d) in
  let c_password :=
    run_field true false
      (and_then (text_field false) (guard validate_password)) (password d) in
  let c_first := run_field true false (text_field false) (first_name d) in
  let c_last := run_field true false (text_field false) (last_name d) in
  let c_phone := run_field false false (text_field true) (phone d) in
  let c_address := run_field false false (text_field true) (address d) in
  let c_farm := run_nullable_field (char_field 200 true) (farm_name d) in
  let c_size := run_nullable_field FarmerSerializer.farm_size_field (farm_size d) in
  let c_location := run_nullable_field (char_field 200 true) (location d) in
  match error_key "username" c_username ++ error_key "email" c_email
        ++ error_key "password" c_password ++ error_key "first_name" c_first
        ++ error_key "last_name" c_last ++ error_key "phone" c_phone
        ++ error_key "address" c_address ++ error_key "farm_name" c_farm
        ++ error_key "farm_size" c_size ++ error_key "location" c_location with
  | [] =>
      inr (mk_validated (value_of c_username) (value_of c_email)
             (value_of c_password) (value_of c_first) (value_of c_last)
             (value_of c_phone) (value_of c_address) (value_of c_farm)
             (value_of c_size) (value_of c_location))
  | errors => inl errors
  end.

(** [User.objects.create_user] on [user_data]; the insert is refused
    when the username is taken, the column being unique. *)
Definition create_user `{Django} (v : validated_data) : M User.t :=
  let! d := objects in
  let! t := now in
  let user :=
    User.mk (DB.user_seq d)
      (normalize_username (default "" (v_username v)))
      (make_password (default "" (v_password v)))
      (normalize_email (default "" (v_email v)))
      (default "" (v_first_name v)) (default "" (v_last_name v))
      "farmer"
      (Some (default "" (v_phone v))) (Some (default "" (v_address v))) t t in
  if existsb (λ u, String.eqb (User.username u) (User.username user))
       (DB.users d)
  then raise DatabaseError
  else
    do! execute (λ d,
          DB.mk (DB.users d ++ [user]) (DB.farmers d) (DB.crops d)
            (DB.tokens d) (DB.user_seq d + 1) (DB.farmer_seq d)
            (DB.crop_seq d)) in
    ret user.

(** [create]: the user, then the profile from what is left of the
    validated data. *)
Definition create `{Django} (v : validated_data) : M Farmer.t :=
  let! user := create_user v in
  let! d := objects in
  let! t := now in
  let farmer :=
    Farmer.mk (DB.farmer_seq d) (User.id user)
      (default None (v_farm_name v)) (default None (v_farm_size v))
      (default None (v_location v)) t t in
  do! execute (λ d,
        DB.mk (DB.users d) (DB.farmers d ++ [farmer]) (DB.crops d)
          (DB.tokens d) (DB.user_seq d) (DB.farmer_seq d + 1)
          (DB.crop_seq d)) in
  ret farmer.
End FarmerCreateSerializer.

(** [FarmerDetailView] as a [RetrieveUpdateDestroyAPIView]: the retrieve
    and update handlers it inherits, with [FarmerSerializer]. *)
Module FarmerDetail.
Definition retrieve (pk : Z) : M Response :=
  let! obj := FarmerDetailView.get_object pk in
  ret (mkResponse HTTP_200_OK (FarmerSerializer_data (fst obj))).

Definition update (request : Request.t FarmerSerializer.data) (pk : Z)
  : M Response :=
  let! obj := FarmerDetailView.get_object pk in
  match FarmerSerializer.run_validation (Request.data request) with
  | inr v =>
      let! farmer := FarmerSerializer.update (fst obj) v in
      ret (mkResponse HTTP_200_OK (FarmerSerializer_data farmer))
  | inl errors => raise (ValidationError errors)
  end.

Definition dispatch (request : Request.t FarmerSerializer.data) (pk : Z)
  : M Response :=
  do! check_permissions IsAdminUser.has_permission request in
  match Request.method request with
  | GET => retrieve pk
  | PUT | PATCH => update request pk
  | DELETE =>
      FarmerDetailView.destroy
        (Request.mk DELETE (Request.user request)
           (Request.query_params request) ()) pk
  | POST => raise MethodNotAllowed
  end.
End FarmerDetail.

(** ** What a stored crop looks like *)

(** The constraints the crop serializer puts on a row it writes. *)
Definition Crop_valid (c : Crop.t) : Prop :=
  Crop.name c ≠ ""
  ∧ (char_length (Crop.name c) ≤ 100)%nat
  ∧ Crop.crop_type c ∈ Crop.CROP_TYPES
  ∧ Crop.status c ∈ Crop.CROP_STATUS
  ∧ Crop.unit c ≠ ""
  ∧ (char_length (Crop.unit c) ≤ 20)%nat
  ∧ Decimal.exponent (Crop.quantity c) = -2
  ∧ 1 ≤ Decimal.coefficient (Crop.quantity c).

(** * Properties *)

(** ** The handler monad and the tables *)

Lemma world_eta (w : World) : mkWorld (db w) (clock w) (faults w) = w.
Proof. by destruct w. Qed.

(** A write statement applies its change or leaves the datastore alone;
    the clock never moves. *)
Lemma execute_cases (f : DB.t → DB.t) (w : World) :
  (∃ fs, execute f w = (Val (), mkWorld (f (db w)) (clock w) fs))
  ∨ (∃ fs, execute f w = (Raise DatabaseError, mkWorld (db w) (clock w) fs)).
Proof.
  unfold execute. destruct (faults w) as [|[] fs]; eauto.
Qed.

Lemma execute_no_faults (f : DB.t → DB.t) (w : World) :
  faults w = [] → execute f w = (Val (), mkWorld (f (db w)) (clock w) []).
Proof. intros H. unfold execute. by rewrite H. Qed.

Lemma find_some_elem {A} (p : A → bool) (l : list A) (x : A) :
  List.find p l = Some x → x ∈ l ∧ p x = true.
Proof.
  intros H. apply find_some in H as [Hin Hp]. split; [|done].
  by apply list_elem_of_In.
Qed.

Lemma find_is_some {A} (p : A → bool) (l : list A) (x : A) :
  x ∈ l → p x = true → is_Some (List.find p l).
Proof.
  intros Hin Hp. destruct (List.find p l) eqn:E; [eauto|].
  apply list_elem_of_In in Hin. by rewrite (find_none _ _ E _ Hin) in Hp.
Qed.

Lemma elem_of_List_filter {A} (p : A → bool) (l : list A) (x : A) :
  x ∈ List.filter p l ↔ x ∈ l ∧ p x = true.
Proof. rewrite !list_elem_of_In. apply filter_In. Qed.

Lemma List_map_fmap {A B} (f : A → B) (l : list A) : List.map f l = f <$> l.
Proof. induction l; [done|]. cbn. by f_equal. Qed.

Lemma find_unique {A} (p : A → bool) (l : list A) (x : A) :
  x ∈ l → p x = true → (∀ y, y ∈ l → p y = true → y = x) →
  List.find p l = Some x.
Proof.
  intros Hin Hp Huniq.
  destruct (find_is_some p l x Hin Hp) as [y Hy].
  rewrite Hy. f_equal. apply find_some_elem in Hy as [Hy1 Hy2]. by apply Huniq.
Qed.

Lemma find_none_all {A} (p : A → bool) (l : list A) :
  (∀ y, y ∈ l → p y = false) → List.find p l = None.
Proof.
  intros H. destruct (List.find p l) as [y|] eqn:E; [|done].
  apply find_some_elem in E as [Hy1 Hy2]. by rewrite (H y Hy1) in Hy2.
Qed.

Lemma NoDup_key_eq {A} (pk : A → Z) (l : list A) (x y : A) :
  NoDup (pk <$> l) → x ∈ l → y ∈ l → pk x = pk y → x = y.
Proof.
  induction l as [|r l IH]; intros Hnd Hx Hy Heq; [by apply elem_of_nil in Hx|].
  cbn in Hnd. apply NoDup_cons in Hnd as [Hr Hnd].
  apply elem_of_cons in Hx as [->|Hx]; apply elem_of_cons in Hy as [->|Hy].
  - done.
  - exfalso. apply Hr. rewrite Heq. by apply list_elem_of_fmap_2.
  - exfalso. apply Hr. rewrite <- Heq. by apply list_elem_of_fmap_2.
  - by apply IH.
Qed.


Lemma farmer_by_user_unique (d : DB.t) (u : User.t) (f : Farmer.t) :
  NoDup (Farmer.user_id <$> DB.farmers d) →
  f ∈ DB.farmers d → Farmer.user_id f = User.id u →
  orm.farmer_by_user d u = Some f.
Proof.
  intros Hnd Hin Hid. apply find_unique; [done|by apply Z.eqb_eq|].
  intros y Hy Hp. apply Z.eqb_eq in Hp.
  apply (NoDup_key_eq Farmer.user_id (DB.farmers d)); [done..|congruence].
Qed.

Lemma farmer_by_user_none (d : DB.t) (u : User.t) :
  (∀ f, f ∈ DB.farmers d → Farmer.user_id f ≠ User.id u) →
  orm.farmer_by_user d u = None.
Proof.
  intros Hno. apply find_none_all. intros y Hy.
  apply Z.eqb_neq. by apply Hno.
Qed.



Lemma is_admin_role (u : User.t) :
  User.is_admin u = true ↔ User.role u = "admin".
Proof. unfold User.is_admin. apply String.eqb_eq. Qed.

Lemma is_farmer_role (u : User.t) :
  User.is_farmer u = true ↔ User.role u = "farmer".
Proof. unfold User.is_farmer. apply String.eqb_eq. Qed.

(** Saving a row over the row that has its key keeps every column on
    which the two agree. *)
Lemma save_row_keeps {A B} (pk : A → Z) (g : A → B) (x y : A) (l : list A) :
  NoDup (pk <$> l) → y ∈ l → pk x = pk y → g x = g y →
  g <$> orm.save_row pk x l = g <$> l.
Proof.
  intros Hnd Hy Hpk Hg. unfold orm.save_row.
  destruct (existsb _ l) eqn:Hex.
  - clear Hex. induction l as [|r l IH]; [done|].
    cbn [List.map fmap list_fmap].
    apply NoDup_cons in Hnd as [Hr Hnd].
    destruct (pk r =? pk x) eqn:E.
    + apply Z.eqb_eq in E. f_equal.
      * apply elem_of_cons in Hy as [->|Hy]; [done|].
        exfalso. apply Hr. rewrite E, Hpk. by apply list_elem_of_fmap_2.
      * clear IH Hy. induction l as [|r' l IH]; [done|].
        cbn [List.map fmap list_fmap].
        apply not_elem_of_cons in Hr as [Hne Hr].
        apply NoDup_cons in Hnd as [_ Hnd].
        destruct (pk r' =? pk x) eqn:E'.
        { apply Z.eqb_eq in E'. congruence. }
        f_equal. by apply IH.
    + f_equal. apply IH; [done|].
      apply elem_of_cons in Hy as [->|Hy]; [|done].
      rewrite Hpk, Z.eqb_refl in E. done.
  - exfalso. apply not_true_iff_false in Hex. apply Hex.
    apply existsb_exists. exists y. split; [by apply list_elem_of_In|].
    rewrite Hpk. apply Z.eqb_refl.
Qed.

(** ** Crop retrieve, update and delete *)

(** C1.  For a crop found by the single-crop endpoint and an
    authenticated caller, the object-level check grants access exactly
    when the caller's role is admin or the user of the crop's farmer is
    the caller.  For every other authenticated caller a retrieve, update
    or delete request is answered 403 Forbidden, the response carries no
    crop, and the datastore is left as it was. *)
Theorem C1_crop_object_permission
    (w : World) (ATOMIC_REQUESTS : bool) (request : Request.t CropPayload)
    (u : User.t) (pk : Z) (obj : orm.joined) :
  Request.user request = Some u →
  List.find (λ j, Crop.id (orm.crop j) =? pk) (CropDetailView.queryset (db w))
    = Some obj →
  (IsCropOwnerOrAdmin.has_object_permission request obj = true
     ↔ User.role u = "admin" ∨ User.id (orm.farmer_user obj) = User.id u)
  ∧ (¬ (User.role u = "admin" ∨ User.id (orm.farmer_user obj) = User.id u) →
     Request.method request ≠ POST →
     as_view ATOMIC_REQUESTS (CropDetailView.dispatch request pk) w
       = (mkResponse HTTP_403_FORBIDDEN (Detail PermissionDenied), w)).
Proof.
  intros Hu Hfind.
  assert (Hperm : IsCropOwnerOrAdmin.has_object_permission request obj = true
     ↔ User.role u = "admin" ∨ User.id (orm.farmer_user obj) = User.id u).
  { unfold IsCropOwnerOrAdmin.has_object_permission. rewrite Hu.
    destruct (User.is_admin u) eqn:Ha.
    - apply is_admin_role in Ha. tauto.
    - unfold User.eqb. rewrite Z.eqb_eq. split; [tauto|].
      intros [Hr|]; [|done]. apply is_admin_role in Hr. congruence. }
  split; [exact Hperm|].
  intros Hno Hm.
  assert (Hdeny : IsCropOwnerOrAdmin.has_object_permission request obj = false).
  { destruct (IsCropOwnerOrAdmin.has_object_permission request obj); [|done].
    exfalso. apply Hno, Hperm. done. }
  unfold as_view, CropDetailView.dispatch, check_permissions,
    IsCropOwnerOrAdmin.has_permission.
  rewrite Hu.
  assert (Hget : CropDetailView.get_object request pk w
                 = (Raise PermissionDenied, w)).
  { unfold CropDetailView.get_object, bind, objects, get_object_or_404.
    rewrite Hfind. unfold ret, check_object_permissions. rewrite Hdeny.
    unfold permission_denied. by rewrite Hu. }
  unfold bind, ret.
  destruct (Request.method request); try done;
    unfold CropDetailView.retrieve, CropDetailView.update,
      CropDetailView.destroy, bind;
    rewrite Hget; simpl; by rewrite ?world_eta; destruct ATOMIC_REQUESTS.
Qed.

(** Bob asks to delete Alice's maize: refused, and the store is as before. *)
Lemma C1_witness :
  as_view false
    (CropDetailView.dispatch
       (Sample.request DELETE Sample.bob (Sample.rice (Decimal.mk 5 0) Absent)) 1)
    Sample.world
  = (mkResponse HTTP_403_FORBIDDEN (Detail PermissionDenied), Sample.world).
Proof.
  refine (proj2 (C1_crop_object_permission Sample.world false
            (Sample.request DELETE Sample.bob (Sample.rice (Decimal.mk 5 0) Absent))
            Sample.bob 1
            (orm.mk_joined Sample.maize Sample.alice_farm Sample.alice)
            _ _) _ _).
  - reflexivity.
  - vm_compute. reflexivity.
  - vm_compute. intros [H|H]; discriminate H.
  - discriminate.
Defined.

Lemma join_crop (d : DB.t) (c : Crop.t) (j : orm.joined) :
  orm.join d c = Some j → orm.crop j = c.
Proof.
  unfold orm.join. destruct (orm.farmer_by_id _ _); [|done].
  destruct (orm.user_by_id _ _); [|done]. by intros [= <-].
Qed.

Lemma select_related_crop (d : DB.t) (j : orm.joined) :
  j ∈ orm.crops_select_related d → orm.crop j ∈ DB.crops d.
Proof.
  unfold orm.crops_select_related. rewrite list_elem_of_omap.
  intros (c & Hc & Hj). rewrite (join_crop _ _ _ Hj).
  by rewrite merge_sort_Permutation in Hc.
Qed.

(** Split on whether the next write statement of the goal goes through. *)
Ltac case_execute :=
  match goal with
  | |- context [execute ?f ?w] =>
      let fs := fresh "fs" in
      destruct (execute_cases f w) as [[fs ->]|[fs ->]]; simpl
  end.

(** C10.  A PUT or PATCH on the single-crop endpoint, whatever its
    payload, its caller and its outcome, leaves every crop with the
    farmer it had: the serializer that reads the payload takes only
    [name], [crop_type], [quantity], [unit], [planting_date],
    [expected_harvest_date], [status] and [notes]. *)
Theorem C10_update_keeps_farmer
    (w : World) (ATOMIC_REQUESTS : bool) (request : Request.t CropPayload)
    (pk : Z) :
  NoDup (Crop.id <$> DB.crops (db w)) →
  Request.method request = PUT ∨ Request.method request = PATCH →
  (λ c, (Crop.id c, Crop.farmer_id c)) <$>
    DB.crops (db (snd (as_view ATOMIC_REQUESTS
                         (CropDetailView.dispatch request pk) w)))
  = (λ c, (Crop.id c, Crop.farmer_id c)) <$> DB.crops (db w).
Proof.
  intros Hnd Hm.
  assert (Hupd : ∀ partial,
    (λ c, (Crop.id c, Crop.farmer_id c)) <$>
      DB.crops (db (snd (as_view ATOMIC_REQUESTS
                           (CropDetailView.update partial request pk) w)))
    = (λ c, (Crop.id c, Crop.farmer_id c)) <$> DB.crops (db w)).
  { intros partial.
    unfold as_view, CropDetailView.update, CropDetailView.get_object, bind,
      objects, get_object_or_404, check_object_permissions, permission_denied.
    destruct (List.find _ _) as [obj|] eqn:Hfind; simpl;
      [|by destruct ATOMIC_REQUESTS].
    destruct (IsCropOwnerOrAdmin.has_object_permission request obj); simpl;
      [|by destruct (Request.user request), ATOMIC_REQUESTS].
    destruct (CropCreateUpdateSerializer.run_validation _ _) as [errors|v];
      simpl; [by destruct ATOMIC_REQUESTS|].
    unfold CropCreateUpdateSerializer.update, bind, now.
    case_execute; [|by destruct ATOMIC_REQUESTS].
    apply find_some_elem in Hfind as [Hin _].
    apply select_related_crop in Hin.
    by apply save_row_keeps with (y := orm.crop obj). }
  unfold CropDetailView.dispatch, check_permissions.
  destruct (IsCropOwnerOrAdmin.has_permission request) eqn:Hp.
  - destruct Hm as [Hm|Hm]; rewrite Hm; apply Hupd.
  - unfold as_view, bind, permission_denied.
    by destruct (Request.user request), ATOMIC_REQUESTS.
Qed.

(** Alice patches her maize with a payload that names farmer 2. *)
Lemma C10_witness :
  (λ c, (Crop.id c, Crop.farmer_id c)) <$>
    DB.crops (db (snd (as_view false
      (CropDetailView.dispatch
         (Sample.request PATCH Sample.alice
            (Sample.rice (Decimal.mk 5 0) (Given (JInt 2)))) 1)
      Sample.world)))
  = [(1, 1); (2, 2); (3, 1)].
Proof.
  refine (eq_trans (C10_update_keeps_farmer Sample.world false
            (Sample.request PATCH Sample.alice
               (Sample.rice (Decimal.mk 5 0) (Given (JInt 2)))) 1 _ _) _).
  - apply (bool_decide_unpack _). vm_compute. exact I.
  - by right.
  - reflexivity.
Defined.

(** ** Crop creation *)


Lemma pow10_nonneg (k : Z) : 0 ≤ 10 ^ k.
Proof. apply Z.pow_nonneg. lia. Qed.




Lemma validate_quantity_nonpositive (q : Decimal.t) :
  Decimal.coefficient q ≤ 0 → CropCreateUpdateSerializer.validate_quantity q = None.
Proof.
  intros Hq. unfold CropCreateUpdateSerializer.validate_quantity, Decimal.leb,
    Decimal.align. simpl.
  pose proof (pow10_nonneg (Decimal.exponent q - Z.min (Decimal.exponent q) 0)).
  destruct (_ <=? _) eqn:E; [done|]. apply Z.leb_gt in E. nia.
Qed.

Ltac case_errors H :=
  match goal with
  | |- context [match ?l with [] => _ | _ :: _ => _ end] => destruct l eqn:H
  end.










(** ** Queries: ordering, joins and grouping *)

Lemma DateTime_leb_spec (a b : DateTime.t) :
  DateTime.leb a b = true ↔
  DateTime.year a < DateTime.year b
  ∨ DateTime.year a = DateTime.year b
    ∧ (DateTime.month a < DateTime.month b
       ∨ DateTime.month a = DateTime.month b
         ∧ (DateTime.day a < DateTime.day b
            ∨ DateTime.day a = DateTime.day b
              ∧ DateTime.micros a ≤ DateTime.micros b)).
Proof.
  unfold DateTime.leb, DateTime.compare.
  destruct (Z.compare_spec (DateTime.year a) (DateTime.year b));
  destruct (Z.compare_spec (DateTime.month a) (DateTime.month b));
  destruct (Z.compare_spec (DateTime.day a) (DateTime.day b));
  destruct (Z.compare_spec (DateTime.micros a) (DateTime.micros b));
  split; intros; try done; lia.
Qed.

(** The default ordering of crops is a total preorder. *)
#[global] Instance newest_first_total : Total Crop.newest_first.
Proof.
  intros a b. unfold Crop.newest_first. rewrite !Is_true_true, !DateTime_leb_spec. lia.
Qed.

#[global] Instance newest_first_trans : Transitive Crop.newest_first.
Proof.
  intros a b c. unfold Crop.newest_first. rewrite !Is_true_true, !DateTime_leb_spec. lia.
Qed.

Lemma wf_join (d : DB.t) (c : Crop.t) :
  DB.wf d → c ∈ DB.crops d →
  ∃ f u, orm.join d c = Some (orm.mk_joined c f u).
Proof.
  intros (_ & _ & _ & Hfu & Hcf) Hc.
  rewrite Forall_forall in Hfu. rewrite Forall_forall in Hcf.
  apply Hcf, Exists_exists in Hc as (f & Hf & Hid).
  destruct (find_is_some (λ r, Farmer.id r =? Crop.farmer_id c) _ f Hf)
    as [f' Hf']; [by apply Z.eqb_eq|].
  apply find_some_elem in Hf' as H'. destruct H' as [Hin' _].
  apply Hfu, Exists_exists in Hin' as (u & Hu & Huid).
  destruct (find_is_some (λ r, User.id r =? Farmer.user_id f') _ u Hu)
    as [u' Hu']; [by apply Z.eqb_eq|].
  exists f', u'. unfold orm.join, orm.farmer_by_id, orm.user_by_id.
  by rewrite Hf', Hu'.
Qed.

Lemma omap_section {A B} (f : A → option B) (g : B → A) (l : list A) :
  (∀ x, x ∈ l → ∃ y, f x = Some y ∧ g y = x) → g <$> omap f l = l.
Proof.
  induction l as [|x l IH]; intros H; [done|].
  destruct (H x) as (y & Hy & Hg); [left|].
  cbn. rewrite Hy. cbn. rewrite Hg. f_equal. apply IH.
  intros z Hz. apply H. by right.
Qed.

Lemma select_related_wf (d : DB.t) :
  DB.wf d →
  orm.crop <$> orm.crops_select_related d
  = merge_sort Crop.newest_first (DB.crops d).
Proof.
  intros Hwf. apply omap_section. intros c Hc.
  rewrite merge_sort_Permutation in Hc.
  destruct (wf_join d c Hwf Hc) as (f & u & ->). eauto.
Qed.

Lemma annotate_count_elem {K} `{EqDecision K} (keys : list K) (k : K) (n : nat) :
  (k, n) ∈ annotate_count keys ↔
  (0 < n)%nat ∧ n = length (List.filter (λ x, bool_decide (x = k)) keys).
Proof.
  unfold annotate_count. rewrite List_map_fmap, list_elem_of_fmap.
  split.
  - intros (k' & Heq & Hk). injection Heq as -> ->. split; [|reflexivity].
    rewrite elem_of_remove_dups in Hk.
    assert (Hin : k' ∈ List.filter (λ x, bool_decide (x = k')) keys).
    { apply elem_of_List_filter. split; [done|]. by apply bool_decide_eq_true. }
    destruct (List.filter _ keys); [by apply elem_of_nil in Hin|simpl; lia].
  - intros [Hpos ->]. exists k. split; [done|].
    apply elem_of_remove_dups.
    destruct (List.filter _ keys) as [|x l] eqn:E; [simpl in Hpos; lia|].
    assert (Hx : x ∈ List.filter (λ x, bool_decide (x = k)) keys)
      by (rewrite E; left).
    apply elem_of_List_filter in Hx as [Hx Hk].
    apply bool_decide_eq_true in Hk. by subst.
Qed.

Lemma annotate_count_keys {K} `{EqDecision K} (keys : list K) :
  (annotate_count keys).*1 = remove_dups keys.
Proof.
  unfold annotate_count.
  induction (remove_dups keys) as [|k l IH]; [done|]. cbn. by f_equal.
Qed.

Lemma dict_lookup (l : list (string * nat)) (k : string) (n : nat) :
  NoDup l.*1 → dict l !! k = Some n ↔ (k, n) ∈ l.
Proof.
  intros Hnd. unfold dict.
  rewrite <- elem_of_list_to_map by (by rewrite fmap_reverse, reverse_Permutation).
  by rewrite elem_of_reverse.
Qed.

Lemma filter_length_map {A B} (f : A → B) (p : B → bool) (l : list A) :
  length (List.filter p (List.map f l))
  = length (List.filter (λ x, p (f x)) l).
Proof.
  induction l as [|x l IH]; [done|]. simpl. destruct (p (f x)); simpl; lia.
Qed.

(** ** The admin dashboard *)

(** C8.  The admin dashboard reports the number of farmer profiles, the
    number of crops, a mapping whose keys are exactly the crop types that
    some crop has, each mapped to the number of crops of that type, and
    the ten crops created last, newest first (all of them when there are
    fewer than ten).  With no crop the mapping and the list are empty. *)
Theorem C8_admin_dashboard (w : World) (request : Request.t unit) :
  DB.wf (db w) →
  ∃ crops_by_type recent_crops,
    AdminDashboardView.get request w
    = (Val (mkResponse HTTP_200_OK
              (AdminDashboard (length (DB.farmers (db w)))
                 (length (DB.crops (db w))) crops_by_type recent_crops)), w)
    ∧ (∀ t n, crops_by_type !! t = Some n ↔
         (0 < n)%nat
         ∧ n = length (List.filter (λ c, bool_decide (Crop.crop_type c = t))
                         (DB.crops (db w))))
    ∧ length recent_crops = (10 `min` length (DB.crops (db w)))%nat
    ∧ StronglySorted Crop.newest_first recent_crops
    ∧ (∃ older, DB.crops (db w) ≡ₚ recent_crops ++ older
                ∧ ∀ x y, x ∈ recent_crops → y ∈ older → Crop.newest_first x y)
    ∧ (DB.crops (db w) = [] → crops_by_type = ∅ ∧ recent_crops = []).
Proof.
  intros Hwf. unfold AdminDashboardView.get, bind, objects, ret.
  do 2 eexists. split; [reflexivity|].
  rewrite List_map_fmap, fmap_take, (select_related_wf _ Hwf).
  pose proof (StronglySorted_merge_sort Crop.newest_first (DB.crops (db w)))
    as Hsorted.
  rewrite <- (take_drop 10 (merge_sort _ _)) in Hsorted.
  split_and!.
  - intros t n. rewrite dict_lookup, annotate_count_elem, filter_length_map.
    + done.
    + rewrite annotate_count_keys. apply NoDup_remove_dups.
  - rewrite length_take, (Permutation_length (merge_sort_Permutation _ _)). done.
  - by apply StronglySorted_app_1_l in Hsorted.
  - exists (drop 10 (merge_sort Crop.newest_first (DB.crops (db w)))). split.
    + by rewrite take_drop, merge_sort_Permutation.
    + intros x y. by apply StronglySorted_app_1_elem_of.
  - intros ->. done.
Qed.

(** The dashboard of the empty datastore. *)
Lemma C8_witness :
  AdminDashboardView.get (Sample.request GET Sample.root ()) Sample.empty_world
  = (Val (mkResponse HTTP_200_OK (AdminDashboard 0 0 ∅ [])),
     Sample.empty_world).
Proof.
  assert (Hwf : DB.wf (db Sample.empty_world)).
  { apply (bool_decide_unpack _). vm_compute. exact I. }
  destruct (C8_admin_dashboard Sample.empty_world
              (Sample.request GET Sample.root ()) Hwf)
    as (crops_by_type & recent_crops & -> & _ & _ & _ & _ & Hempty).
  destruct (Hempty eq_refl) as [-> ->]. reflexivity.
Defined.

(** ** The crop list *)

Lemma str_truthy_spec (s : string) : str_truthy s = true ↔ s ≠ "".
Proof.
  unfold str_truthy. rewrite negb_true_iff.
  destruct (String.eqb_spec s ""); split; congruence.
Qed.

(** One optional query filter, as the view applies it. *)
Lemma query_filter_elem (param : option string) (column : Crop.t → string)
    (crops : list Crop.t) (c : Crop.t) :
  c ∈ match param with
      | Some t =>
          if str_truthy t
          then List.filter (λ c, String.eqb (column c) t) crops
          else crops
      | None => crops
      end
  ↔ c ∈ crops ∧ ∀ t, param = Some t → t ≠ "" → column c = t.
Proof.
  destruct param as [t|].
  - destruct (str_truthy t) eqn:E.
    + apply str_truthy_spec in E. rewrite elem_of_List_filter, String.eqb_eq.
      split.
      * intros [Hc Ht]. split; [done|]. by intros t' [= <-] _.
      * intros [Hc Ht]. split; [done|]. by apply Ht.
    + apply not_true_iff_false in E. rewrite str_truthy_spec in E.
      split; [|tauto].
      intros Hc. split; [done|]. intros t' [= <-] Hne. by destruct E.
  - split; [|tauto]. intros Hc. split; [done|]. by intros t' [=].
Qed.

(** C5, as amended.  The crop list is scoped by role: an admin receives
    the crops of the whole table, a farmer the crops of the caller's own
    profile, the row of the farmers table whose [user_id] is the caller's
    key (the one-to-one field lets no two profiles share a user); a
    farmer without a profile is answered 404.  A [crop_type] or [status]
    query parameter
    that is given with a non-empty value keeps the crops whose column
    equals it, the two combined by conjunction; a parameter that is
    missing or given empty does not filter. *)
Theorem C5_crop_list (w : World) (request : Request.t CropPayload) (u : User.t) :
  Request.user request = Some u →
  let crop_type := QueryDict_get "crop_type" (Request.query_params request) in
  let status_filter := QueryDict_get "status" (Request.query_params request) in
  let passes (c : Crop.t) :=
    (∀ t, crop_type = Some t → t ≠ "" → Crop.crop_type c = t)
    ∧ (∀ s, status_filter = Some s → s ≠ "" → Crop.status c = s) in
  (User.role u = "admin" → DB.wf (db w) →
     ∃ crops,
       CropListCreateView.get request w
       = (Val (mkResponse HTTP_200_OK (CropSerializer_many crops)), w)
       ∧ ∀ c, c ∈ crops ↔ c ∈ DB.crops (db w) ∧ passes c)
  ∧ (User.role u = "farmer" →
     (∀ f, NoDup (Farmer.user_id <$> DB.farmers (db w)) →
           f ∈ DB.farmers (db w) →
           Farmer.user_id f = User.id u →
        ∃ crops,
          CropListCreateView.get request w
          = (Val (mkResponse HTTP_200_OK (CropSerializer_many crops)), w)
          ∧ ∀ c, c ∈ crops ↔
                 c ∈ DB.crops (db w) ∧ Crop.farmer_id c = Farmer.id f
                 ∧ passes c)
     ∧ ((∀ f, f ∈ DB.farmers (db w) → Farmer.user_id f ≠ User.id u) →
        CropListCreateView.get request w = (Raise Http404, w))).
Proof.
  intros Hu crop_type status_filter passes.
  unfold CropListCreateView.get, request_user, bind, objects. rewrite Hu.
  simpl. fold crop_type status_filter.
  split.
  - intros Hrole Hwf. apply is_admin_role in Hrole. rewrite Hrole. simpl.
    eexists. split; [reflexivity|]. intros c.
    rewrite !query_filter_elem, List_map_fmap, (select_related_wf _ Hwf),
      merge_sort_Permutation.
    unfold passes. tauto.
  - intros Hrole.
    assert (User.is_admin u = false) as ->.
    { unfold User.is_admin. by rewrite Hrole. }
    split.
    + intros f Hnd Hin Hid.
      rewrite (farmer_by_user_unique _ _ _ Hnd Hin Hid). simpl.
      eexists. split; [reflexivity|]. intros c.
      rewrite !query_filter_elem. unfold orm.crops_of_farmer.
      rewrite elem_of_List_filter, merge_sort_Permutation, Z.eqb_eq.
      unfold passes. tauto.
    + intros Hno. by rewrite (farmer_by_user_none _ _ Hno).
Qed.

(** Bob, whose profile is the second row of the farmers table, lists
    his crops with [?status=growing]. *)
Lemma C5_witness :
  ∃ crops,
    CropListCreateView.get
      (Request.mk GET (Some Sample.bob) [("status", "growing")]
         (Sample.rice (Decimal.mk 5 0) Absent)) Sample.world
    = (Val (mkResponse HTTP_200_OK (CropSerializer_many crops)), Sample.world)
    ∧ ∀ c, c ∈ crops ↔
           c ∈ DB.crops Sample.store
           ∧ Crop.farmer_id c = 2
           ∧ (∀ t, None = Some t → t ≠ "" → Crop.crop_type c = t)
           ∧ (∀ s, Some "growing" = Some s → s ≠ "" → Crop.status c = s).
Proof.
  refine (proj1 (proj2 (C5_crop_list Sample.world
                  (Request.mk GET (Some Sample.bob) [("status", "growing")]
                     (Sample.rice (Decimal.mk 5 0) Absent))
                  Sample.bob eq_refl)
           eq_refl) Sample.bob_farm _ _ _).
  - apply (bool_decide_unpack _). vm_compute. exact I.
  - vm_compute. repeat constructor.
  - reflexivity.
Defined.

(** An admin lists the crops with [?crop_type=], the parameter supplied
    with the empty value: the answer is every crop, none of which has the
    empty crop type. *)
Lemma C5_counterexample :
  let request :=
    Request.mk GET (Some Sample.root) [("crop_type", "")]
      (Sample.rice (Decimal.mk 5 0) Absent) in
  QueryDict_get "crop_type" (Request.query_params request) = Some ""
  ∧ fst (CropListCreateView.get request Sample.world)
    = Val (mkResponse HTTP_200_OK
             (CropSerializer_many [Sample.wheat; Sample.beans; Sample.maize]))
  ∧ ¬ (∀ c, c ∈ [Sample.wheat; Sample.beans; Sample.maize] ↔
            c ∈ DB.crops Sample.store ∧ Crop.crop_type c = "").
Proof.
  split_and!; [reflexivity|vm_compute; reflexivity|].
  intros H. destruct (proj1 (H Sample.wheat)) as [_ Htype]; [left|].
  discriminate Htype.
Qed.

(** ** Registration *)

Lemma fresh_user_unique (d : DB.t) (user u : User.t) :
  DB.wf d → User.id user = DB.user_seq d →
  u ∈ DB.users d ++ [user] → User.id u = User.id user → u = user.
Proof.
  intros (Hids & _) Hid Hin Heq. rewrite Forall_forall in Hids.
  apply elem_of_app in Hin as [Hin|Hin]; [|by apply list_elem_of_singleton in Hin].
  apply Hids in Hin. lia.
Qed.

Lemma fresh_profile_unique (d : DB.t) (user : User.t) (farmer f : Farmer.t) :
  DB.wf d → User.id user = DB.user_seq d →
  Farmer.user_id farmer = User.id user →
  f ∈ DB.farmers d ++ [farmer] → Farmer.user_id f = User.id user → f = farmer.
Proof.
  intros (Hids & _ & _ & Hfu & _) Hid Hfarmer Hin Heq.
  rewrite Forall_forall in Hids. rewrite Forall_forall in Hfu.
  apply elem_of_app in Hin as [Hin|Hin]; [|by apply list_elem_of_singleton in Hin].
  apply Hfu, Exists_exists in Hin as (u & Hu & Huid).
  apply Hids in Hu. lia.
Qed.

Section registration.
Context `{Django}.

(** C4.  A registration whose payload is valid succeeds when the
    datastore takes the writes, and whenever a registration is answered
    201 the datastore then holds the new user, with role farmer, and a
    farmer profile with no farm name, size or location whose user is the
    new user: the only profile of that user, and the only user with that
    key. *)
Theorem C4_registration_creates_profile
    (w : World) (request : Request.t UserRegistrationSerializer.data) :
  DB.wf (db w) →
  let served := RegisterView.post request w in
  (∀ v,
     UserRegistrationSerializer.run_validation (db w) (Request.data request)
       = inr v →
     faults w = [] →
     ∃ user token,
       fst served
       = Val (mkResponse HTTP_201_CREATED
                (Registered "User created successfully" user token)))
  ∧ (∀ r,
       fst served = Val r → status r = HTTP_201_CREATED →
       ∃ user token farmer,
         body r = Registered "User created successfully" user token
         ∧ User.role user = "farmer"
         ∧ user ∈ DB.users (db (snd served))
         ∧ farmer ∈ DB.farmers (db (snd served))
         ∧ Farmer.user_id farmer = User.id user
         ∧ Farmer.farm_name farmer = None
         ∧ Farmer.farm_size farmer = None
         ∧ Farmer.location farmer = None
         ∧ (∀ f, f ∈ DB.farmers (db (snd served)) →
                 Farmer.user_id f = User.id user → f = farmer)
         ∧ (∀ u, u ∈ DB.users (db (snd served)) →
                 User.id u = User.id user → u = user)).
Proof.
  intros Hwf served. subst served.
  unfold RegisterView.post, bind, objects.
  destruct (UserRegistrationSerializer.run_validation _ _) as [errors|v];
    simpl.
  { split; [done|]. by intros r [= <-]. }
  unfold UserRegistrationSerializer.create, UserRegistrationSerializer.create_user,
    bind, objects, now.
  split.
  - intros v' _ Hno. rewrite execute_no_faults by done. simpl.
    unfold UserRegistrationSerializer.create_farmer, Token_get_or_create,
      bind, objects, now. simpl.
    destruct (List.find _ _); simpl; eauto.
  - case_execute; [|done].
    unfold UserRegistrationSerializer.create_farmer, bind, objects, now. simpl.
    case_execute; [|done].
    unfold Token_get_or_create, bind, objects. simpl.
    set (user := User.mk _ _ _ _ _ _ _ _ _ _ _).
    set (farmer := Farmer.mk _ _ _ _ _ _ _).
    assert (Hgoal : ∀ r token,
      Val (mkResponse HTTP_201_CREATED
             (Registered "User created successfully" user token)) = Val r →
      ∃ user' token' farmer',
         body r = Registered "User created successfully" user' token'
         ∧ User.role user' = "farmer"
         ∧ user' ∈ DB.users (db w) ++ [user]
         ∧ farmer' ∈ DB.farmers (db w) ++ [farmer]
         ∧ Farmer.user_id farmer' = User.id user'
         ∧ Farmer.farm_name farmer' = None
         ∧ Farmer.farm_size farmer' = None
         ∧ Farmer.location farmer' = None
         ∧ (∀ f, f ∈ DB.farmers (db w) ++ [farmer] →
                 Farmer.user_id f = User.id user' → f = farmer')
         ∧ (∀ u, u ∈ DB.users (db w) ++ [user] →
                 User.id u = User.id user' → u = user')).
    { intros r token [= <-]. exists user, token, farmer. simpl.
      split_and!; try reflexivity.
      - apply elem_of_app. right. left.
      - apply elem_of_app. right. left.
      - intros f. by apply (fresh_profile_unique (db w) user farmer f).
      - intros u. by apply (fresh_user_unique (db w) user u). }
    destruct (List.find _ _) as [token|]; simpl.
    + intros r Hr _. by eapply Hgoal.
    + case_execute; [|done]. intros r Hr _. by eapply Hgoal.
Qed.
End registration.

(** Carol registers on the sample store. *)
Lemma C4_witness :
  ∃ user token,
    fst (@RegisterView.post Sample.django
           (Request.mk POST None [] Sample.carol) Sample.world)
    = Val (mkResponse HTTP_201_CREATED
             (Registered "User created successfully" user token)).
Proof.
  assert (Hwf : DB.wf (db Sample.world)).
  { apply (bool_decide_unpack _). vm_compute. exact I. }
  destruct (@C4_registration_creates_profile Sample.django Sample.world
              (Request.mk POST None [] Sample.carol) Hwf) as [Hvalid _].
  eapply Hvalid; vm_compute; reflexivity.
Defined.

(** ** The farmer's own profile *)

(** C3.  The profile update is not one operation, against the claim:
    the handler first copies the user keys of the payload onto the
    caller's user row and saves it, without validating them, and only
    then validates the profile keys.  When the profile keys are rejected
    the answer is 400 with the serializer's errors, the profile is as
    before, and the user row is already saved with the new values: the
    request leaves half an update behind.  When they are accepted both
    rows are saved.  The answer is a returned response in both cases, so
    a transaction around the request commits it. *)
Theorem C3_profile_update_order
    (w : World) (ATOMIC_REQUESTS : bool) (request : Request.t ProfilePayload)
    (u u' : User.t) (farmer : Farmer.t) :
  Request.method request = PUT →
  Request.user request = Some u →
  User.role u = "farmer" →
  orm.farmer_by_user (db w) u = Some farmer →
  FarmerProfileView.copy_user_fields u (Request.data request) = Some u' →
  faults w = [] →
  let saved := FarmerProfileView.touch (clock w) u' in
  let users_saved := DB.set_users (orm.save_row User.id saved) (db w) in
  (∀ errors,
     FarmerSerializer.run_validation (profile (Request.data request))
       = inl errors →
     as_view ATOMIC_REQUESTS (FarmerProfileView.dispatch request) w
     = (mkResponse HTTP_400_BAD_REQUEST (Errors errors),
        mkWorld users_saved (clock w) [])
     ∧ DB.farmers users_saved = DB.farmers (db w))
  ∧ (∀ v,
       FarmerSerializer.run_validation (profile (Request.data request))
         = inr v →
       ∃ farmer',
         as_view ATOMIC_REQUESTS (FarmerProfileView.dispatch request) w
         = (mkResponse HTTP_200_OK (FarmerSerializer_data farmer'),
            mkWorld (DB.set_farmers (orm.save_row Farmer.id farmer') users_saved)
              (clock w) [])
         ∧ Farmer.id farmer' = Farmer.id farmer
         ∧ Farmer.farm_name farmer'
           = default (Farmer.farm_name farmer) (FarmerSerializer.v_farm_name v)
         ∧ Farmer.farm_size farmer'
           = default (Farmer.farm_size farmer) (FarmerSerializer.v_farm_size v)
         ∧ Farmer.location farmer'
           = default (Farmer.location farmer) (FarmerSerializer.v_location v)).
Proof.
  intros Hm Hu Hrole Hf Hcopy Hno saved users_saved.
  apply is_farmer_role in Hrole.
  unfold as_view, FarmerProfileView.dispatch, check_permissions,
    IsFarmerUser.has_permission, bind.
  rewrite Hu, Hrole, Hm. simpl.
  unfold FarmerProfileView.put, request_user, bind, objects, get_object_or_404.
  rewrite Hu. simpl. rewrite Hf. simpl.
  unfold FarmerProfileView.update_user, bind, now. rewrite Hcopy.
  rewrite execute_no_faults by done. simpl.
  split.
  - intros errors ->. done.
  - intros v ->. eexists. split; [reflexivity|]. done.
Qed.


(** Alice renames herself and asks for a farm of size zero. *)
Lemma C3_witness :
  ∃ w',
    as_view false
      (FarmerProfileView.dispatch
         (Sample.request PUT Sample.alice Sample.rename_and_shrink))
      Sample.world
    = (mkResponse HTTP_400_BAD_REQUEST (Errors ["farm_size"]), w')
    ∧ DB.farmers (db w') = DB.farmers (db Sample.world).
Proof.
  destruct (C3_profile_update_order Sample.world false
              (Sample.request PUT Sample.alice Sample.rename_and_shrink)
              Sample.alice
              (User.mk 2 "alice" "x" "" "Zed" "Lee" "farmer" None None
                 Sample.t0 Sample.t0)
              Sample.alice_farm
              eq_refl eq_refl eq_refl eq_refl eq_refl eq_refl)
    as [Hrejected _].
  destruct (Hrejected ["farm_size"] eq_refl) as [Hserved Hfarmers].
  eexists. split; [exact Hserved|exact Hfarmers].
Defined.

(** The same request: the profile keys are rejected and the answer is
    400, yet the caller's first name in the datastore has changed, with
    and without a transaction around the request. *)
Lemma C3_counterexample :
  let request := Sample.request PUT Sample.alice Sample.rename_and_shrink in
  let served ATOMIC_REQUESTS :=
    as_view ATOMIC_REQUESTS (FarmerProfileView.dispatch request) Sample.world in
  FarmerSerializer.run_validation (profile (Request.data request))
    = inl ["farm_size"]
  ∧ fst (served false) = mkResponse HTTP_400_BAD_REQUEST (Errors ["farm_size"])
  ∧ User.first_name <$> orm.user_by_id (db Sample.world) 2 = Some "Ann"
  ∧ User.first_name <$> orm.user_by_id (db (snd (served false))) 2 = Some "Zed"
  ∧ User.first_name <$> orm.user_by_id (db (snd (served true))) 2 = Some "Zed".
Proof. vm_compute. done. Qed.

(** ** Deleting a farmer *)

Lemma find_none_subset {A} (p : A → bool) (l l' : list A) :
  (∀ x, x ∈ l' → x ∈ l) → List.find p l = None → List.find p l' = None.
Proof.
  intros Hsub Hnone. destruct (List.find p l') as [x|] eqn:E; [|done].
  apply find_some_elem in E as [Hin Hp].
  apply Hsub, list_elem_of_In in Hin.
  by rewrite (find_none _ _ Hnone _ Hin) in Hp.
Qed.

Lemma find_filter_out {A} (pk : A → Z) (k : Z) (l : list A) :
  List.find (λ r, pk r =? k) (List.filter (λ r, negb (pk r =? k)) l) = None.
Proof.
  destruct (List.find _ _) as [x|] eqn:E; [|done].
  apply find_some_elem in E as [Hin Hp].
  apply elem_of_List_filter in Hin as [_ Hn]. by rewrite Hp in Hn.
Qed.

Lemma delete_farmer_gone (f : Farmer.t) (d : DB.t) :
  orm.farmer_by_id (orm.delete_farmer f d) (Farmer.id f) = None.
Proof. apply (find_filter_out Farmer.id). Qed.

Lemma delete_farmer_farmers (f x : Farmer.t) (d : DB.t) :
  x ∈ DB.farmers (orm.delete_farmer f d) → x ∈ DB.farmers d.
Proof. simpl. rewrite elem_of_List_filter. tauto. Qed.

Lemma delete_user_farmers (u : User.t) (x : Farmer.t) (d : DB.t) :
  x ∈ DB.farmers (orm.delete_user u d) → x ∈ DB.farmers d.
Proof.
  unfold orm.delete_user. simpl.
  induction (List.filter _ (DB.farmers d)) as [|f l IH]; [done|].
  intros Hx. apply IH. by apply delete_farmer_farmers in Hx.
Qed.

Lemma delete_user_gone (u : User.t) (d : DB.t) :
  orm.user_by_id (orm.delete_user u d) (User.id u) = None.
Proof.
  unfold orm.user_by_id, orm.delete_user. simpl.
  assert (Husers : ∀ l, DB.users (fold_right orm.delete_farmer d l) = DB.users d).
  { induction l; [done|]. simpl. done. }
  rewrite Husers. apply (find_filter_out User.id).
Qed.

Lemma farmer_queryset_user (d : DB.t) (pk : Z) (f : Farmer.t) (u : User.t) :
  List.find (λ fu, Farmer.id (fst fu) =? pk) (FarmerDetailView.queryset d)
    = Some (f, u) →
  Farmer.id f = pk ∧ orm.user_by_id d (User.id u) = Some u.
Proof.
  intros Hfind. apply find_some_elem in Hfind as [Hin Hpk].
  split; [by apply Z.eqb_eq in Hpk|].
  unfold FarmerDetailView.queryset in Hin.
  apply list_elem_of_omap in Hin as (f' & _ & Hjoin).
  destruct (orm.user_by_id d (Farmer.user_id f')) as [u'|] eqn:Hu; [|done].
  injection Hjoin as -> ->.
  apply find_some_elem in Hu as H'. destruct H' as [_ Hid].
  apply Z.eqb_eq in Hid. by rewrite Hid.
Qed.

(** C2, as amended.  Deleting a farmer deletes the profile, with its
    crops, and then its user, as two write statements with no transaction
    of the view's own around them.  When the datastore takes both, the
    answer is 204 and neither the profile nor the user is left.  When it
    takes the first and refuses the second, the answer is 500, the
    profile stays deleted and the user stays; the deletion of the profile
    is undone only if the project's settings run every request in a
    transaction. *)
Theorem C2_farmer_deletion_steps
    (w : World) (request : Request.t unit) (pk : Z)
    (farmer : Farmer.t) (user : User.t) :
  IsAdminUser.has_permission request = true →
  List.find (λ fu, Farmer.id (fst fu) =? pk) (FarmerDetailView.queryset (db w))
    = Some (farmer, user) →
  let served ATOMIC_REQUESTS :=
    as_view ATOMIC_REQUESTS (FarmerDetailView.dispatch_delete request pk) w in
  (faults w = [] →
     ∀ ATOMIC_REQUESTS,
       fst (served ATOMIC_REQUESTS)
       = mkResponse HTTP_204_NO_CONTENT (Message "Farmer deleted successfully")
       ∧ db (snd (served ATOMIC_REQUESTS))
         = orm.delete_user user (orm.delete_farmer farmer (db w))
       ∧ orm.farmer_by_id (db (snd (served ATOMIC_REQUESTS))) pk = None
       ∧ orm.user_by_id (db (snd (served ATOMIC_REQUESTS))) (User.id user)
         = None)
  ∧ (∀ rest, faults w = false :: true :: rest →
       fst (served false)
       = mkResponse HTTP_500_INTERNAL_SERVER_ERROR (Detail DatabaseError)
       ∧ db (snd (served false)) = orm.delete_farmer farmer (db w)
       ∧ orm.farmer_by_id (db (snd (served false))) pk = None
       ∧ orm.user_by_id (db (snd (served false))) (User.id user) = Some user
       ∧ db (snd (served true)) = db w).
Proof.
  intros Hadmin Hfind served. subst served.
  destruct (farmer_queryset_user _ _ _ _ Hfind) as [<- Huser].
  unfold as_view, FarmerDetailView.dispatch_delete, check_permissions, bind.
  rewrite Hadmin. simpl.
  unfold FarmerDetailView.destroy, FarmerDetailView.get_object, bind, objects,
    get_object_or_404.
  rewrite Hfind. simpl.
  split.
  - intros Hno ATOMIC_REQUESTS. unfold execute. rewrite Hno. simpl.
    split_and!; try done.
    + apply find_none_subset with (DB.farmers (orm.delete_farmer farmer (db w))).
      * intros x. apply delete_user_farmers.
      * apply delete_farmer_gone.
    + apply delete_user_gone.
  - intros rest Hfaults. unfold execute. rewrite Hfaults. simpl.
    split_and!; try done.
    apply delete_farmer_gone.
Qed.


(** An admin deletes Alice's profile on a datastore that takes both
    writes. *)
Lemma C2_witness :
  db (snd (as_view false
             (FarmerDetailView.dispatch_delete
                (Sample.request DELETE Sample.root ()) 1)
             Sample.world))
  = orm.delete_user Sample.alice
      (orm.delete_farmer Sample.alice_farm Sample.store).
Proof.
  assert (Hfind :
    List.find (λ fu, Farmer.id (fst fu) =? 1)
      (FarmerDetailView.queryset (db Sample.world))
    = Some (Sample.alice_farm, Sample.alice)).
  { vm_compute. reflexivity. }
  destruct (C2_farmer_deletion_steps Sample.world
              (Sample.request DELETE Sample.root ()) 1
              Sample.alice_farm Sample.alice eq_refl Hfind) as [Hboth _].
  exact (proj1 (proj2 (Hboth eq_refl false))).
Defined.

(** The same request on a datastore that takes the deletion of the
    profile and refuses the deletion of the user: the profile is gone,
    the user is still there, and the datastore is not the one the request
    started from. *)
Lemma C2_counterexample :
  let served :=
    as_view false
      (FarmerDetailView.dispatch_delete (Sample.request DELETE Sample.root ()) 1)
      Sample.failing_world in
  status (fst served) = HTTP_500_INTERNAL_SERVER_ERROR
  ∧ orm.farmer_by_id (db Sample.failing_world) 1 = Some Sample.alice_farm
  ∧ orm.farmer_by_id (db (snd served)) 1 = None
  ∧ orm.user_by_id (db (snd served)) 2 = Some Sample.alice
  ∧ db (snd served) ≠ db Sample.failing_world.
Proof. vm_compute. split_and!; try reflexivity. discriminate. Qed.

(** ** Crop statistics *)

#[global] Instance by_month_total : Total by_month.
Proof.
  intros a b. unfold by_month. rewrite !Is_true_true. apply String.leb_total.
Qed.

#[global] Instance by_count_desc_total {K} : Total (@by_count_desc K).
Proof.
  intros a b. unfold by_count_desc. rewrite !Is_true_true, !Nat.leb_le. lia.
Qed.

(** What the statistics hold, whatever the names of the farmers: at most
    ten rows of crop counts per pair of first and last name, largest
    count first, and one row per month text that some crop was created
    in, with the number of those crops, in the order of the text. *)
Lemma crop_statistics_rows (w : World) (request : Request.t unit) :
  IsAdminUser.has_permission request = true →
  Request.method request = GET →
  ∃ by_farmer by_month_rows,
    crop_statistics request w
    = (Val (mkResponse HTTP_200_OK (Statistics by_farmer by_month_rows)), w)
    ∧ (length by_farmer ≤ 10)%nat
    ∧ Sorted (λ a b, snd b ≤ snd a)%nat by_farmer
    ∧ (∀ first last n, (first, last, n) ∈ by_farmer →
         n = length (List.filter
                       (λ j, bool_decide
                               ((User.first_name (orm.farmer_user j),
                                 User.last_name (orm.farmer_user j))
                                = (first, last)))
                       (omap (orm.join (db w)) (DB.crops (db w)))))
    ∧ Sorted by_month by_month_rows
    ∧ (∀ m n, (m, n) ∈ by_month_rows ↔
         (0 < n)%nat
         ∧ n = length (List.filter
                         (λ c, bool_decide (date_format (Crop.created_at c) = m))
                         (DB.crops (db w)))).
Proof.
  intros Hadmin Hget.
  unfold crop_statistics, check_permissions, bind. rewrite Hadmin, Hget.
  simpl. unfold bind, objects, ret. do 2 eexists. split; [reflexivity|].
  split_and!.
  - rewrite length_take. lia.
  - pose proof (Sorted_merge_sort (@by_count_desc (string * string))
      (annotate_count
         (List.map (λ j, (User.first_name (orm.farmer_user j),
                          User.last_name (orm.farmer_user j)))
            (omap (orm.join (db w)) (DB.crops (db w)))))) as Hs.
    revert Hs. generalize 10%nat.
    induction (merge_sort _ _) as [|x l IH]; intros k Hs.
    + destruct k; constructor.
    + destruct k; [constructor|]. simpl.
      inversion Hs as [|? ? Hl Hx]; subst. constructor; [by apply IH|].
      destruct l, k; try constructor. inversion Hx; subst.
      apply Nat.leb_le. by apply Is_true_true.
  - intros first last n Hin.
    apply elem_of_take in Hin as (i & Hin & _).
    apply list_elem_of_lookup_2 in Hin.
    rewrite merge_sort_Permutation in Hin.
    apply annotate_count_elem in Hin as [_ ->].
    apply filter_length_map.
  - apply Sorted_merge_sort. apply _.
  - intros m n. rewrite merge_sort_Permutation, annotate_count_elem,
      filter_length_map. done.
Qed.

(** C9.  On the sample store Alice's profile has two crops and Bob's has
    one; their users are both called Ann Lee.  The statistics group the
    crops by the first and last name of the farmer's user, so the answer
    has a single row, Ann Lee with three crops, which is the count of no
    farmer.  The crops per month come in the order of the month text. *)
Theorem C9_same_name_farmers_merged :
  fst (crop_statistics (Sample.request GET Sample.root ()) Sample.world)
  = Val (mkResponse HTTP_200_OK
           (Statistics [("Ann", "Lee", 3%nat)]
              [("2024-01", 1%nat); ("2024-02", 2%nat)]))
  ∧ Sample.alice_farm ≠ Sample.bob_farm
  ∧ length (orm.crops_of_farmer Sample.store Sample.alice_farm) = 2%nat
  ∧ length (orm.crops_of_farmer Sample.store Sample.bob_farm) = 1%nat.
Proof. vm_compute. split_and!; try reflexivity. discriminate. Qed.

(** * Further properties of the application *)

(** ** Role gates *)










(** ** What the crop serializer lets through *)

Lemma decimal_field_places (m p : Z) (q q' : Decimal.t) :
  0 ≤ p → decimal_field m p q = Some q' →
  q' = Decimal.quantize q ∧ - p ≤ Decimal.exponent q.
Proof.
  intros Hp. unfold decimal_field.
  destruct (0 <=? Decimal.exponent q) eqn:E0.
  - apply Z.leb_le in E0.
    repeat match goal with |- context [if ?b then _ else _] => destruct b end;
      intros [= <-]; split; try done; lia.
  - destruct (Z.abs (Decimal.exponent q) <? Decimal.digits q);
      repeat match goal with
             | |- context [if ?b then _ else _] => destruct b eqn:?
             end; intros [= <-]; split; try done;
      repeat match goal with
             | H : (_ <? _) = false |- _ => apply Z.ltb_ge in H
             end; lia.
Qed.

(** X4.  A quantity that the crop serializer accepts, and a farm size
    that the farmer serializer accepts, is kept as the same number
    written with exactly two decimal places, and is at least 0.01. *)
Theorem accepted_decimals (q q' : Decimal.t) :
  CropCreateUpdateSerializer.quantity_field q = Some q'
  ∨ FarmerSerializer.farm_size_field q = Some q' →
  Decimal.exponent q' = -2
  ∧ 1 ≤ Decimal.coefficient q'
  ∧ -2 ≤ Decimal.exponent q
  ∧ Decimal.coefficient q'
    = Decimal.coefficient q * 10 ^ (Decimal.exponent q + 2).
Proof.
  assert (Hmin : ∀ q1 q2, decimal_field 10 2 q = Some q1 →
            MinValueValidator Decimal.cent q1 = Some q2 →
            q2 = q1 ∧ Decimal.exponent q1 = -2 ∧ 1 ≤ Decimal.coefficient q1
            ∧ -2 ≤ Decimal.exponent q
            ∧ Decimal.coefficient q1
              = Decimal.coefficient q * 10 ^ (Decimal.exponent q + 2)).
  { intros q1 q2 Hd Hv.
    apply decimal_field_places in Hd as [-> Hexp]; [|lia].
    unfold Decimal.quantize in *.
    destruct (Decimal.exponent q <? -2) eqn:E; [apply Z.ltb_lt in E; lia|].
    unfold MinValueValidator, Decimal.ltb, Decimal.align in Hv. simpl in Hv.
    match type of Hv with
    | (if ?b then _ else _) = _ => destruct b eqn:E1; [done|]
    end.
    injection Hv as <-. apply Z.ltb_ge in E1.
    change (-2 - Z.min (-2) (-2)) with 0 in E1. simpl. split_and!; try done; lia. }
  unfold CropCreateUpdateSerializer.quantity_field,
    FarmerSerializer.farm_size_field, and_then.
  intros [H|H]; destruct (decimal_field 10 2 q) as [q1|] eqn:Hd; try done;
    destruct (MinValueValidator Decimal.cent q1) as [q2|] eqn:Hv; try done;
    destruct (Hmin q1 q2 eq_refl Hv) as (-> & Hrest).
  - unfold CropCreateUpdateSerializer.validate_quantity in H.
    destruct (Decimal.leb q1 Decimal.zero); [done|]. by injection H as <-.
  - by injection H as <-.
Qed.

Lemma accepted_decimals_witness :
  Decimal.exponent (Decimal.mk 1250 (-2)) = -2
  ∧ 1 ≤ Decimal.coefficient (Decimal.mk 1250 (-2))
  ∧ -2 ≤ Decimal.exponent (Decimal.mk 125 (-1))
  ∧ Decimal.coefficient (Decimal.mk 1250 (-2))
    = Decimal.coefficient (Decimal.mk 125 (-1))
      * 10 ^ (Decimal.exponent (Decimal.mk 125 (-1)) + 2).
Proof.
  apply (accepted_decimals (Decimal.mk 125 (-1)) (Decimal.mk 1250 (-2))).
  left. vm_compute. reflexivity.
Defined.

Lemma run_field_value {A} (required partial : bool) (check : A → option A)
    (x : Field A) (b : A) :
  value_of (run_field required partial check x) = Some b →
  ∃ a, x = Given a ∧ check a = Some b.
Proof.
  destruct x as [| |a]; simpl.
  - by destruct partial, required.
  - done.
  - destruct (check a) eqn:E; [|done]. intros [= <-]. eauto.
Qed.

Lemma run_field_required {A} (check : A → option A) (x : Field A) :
  failed (run_field true false check x) = false →
  is_Some (value_of (run_field true false check x)).
Proof.
  destruct x as [| |a]; simpl; try done. destruct (check a); simpl; eauto.
  done.
Qed.

Lemma char_field_value (n : nat) (s s' : string) :
  char_field n false s = Some s' → s' ≠ "" ∧ (char_length s' ≤ n)%nat.
Proof.
  unfold char_field. simpl. destruct (String.eqb_spec (strip s) ""); [done|].
  destruct (has_null_character (strip s)); [done|].
  destruct (char_length (strip s) <=? n)%nat eqn:E; [|done].
  intros [= <-]. split; [done|]. by apply Nat.leb_le.
Qed.

Lemma choice_field_value (choices : list string) (s s' : string) :
  choice_field choices s = Some s' → s' ∈ choices.
Proof.
  unfold choice_field. destruct (existsb _ _) eqn:E; [|done].
  intros [= <-]. apply existsb_exists in E as (c & Hc & Heq).
  apply String.eqb_eq in Heq as ->. by apply list_elem_of_In.
Qed.

(** What the keys of the validated data of a crop hold. *)
Lemma crop_validated (partial : bool) (d : CropCreateUpdateSerializer.data)
    (v : CropCreateUpdateSerializer.validated_data) :
  CropCreateUpdateSerializer.run_validation partial d = inr v →
  (∀ s, CropCreateUpdateSerializer.v_name v = Some s →
        s ≠ "" ∧ (char_length s ≤ 100)%nat)
  ∧ (∀ s, CropCreateUpdateSerializer.v_crop_type v = Some s →
          s ∈ Crop.CROP_TYPES)
  ∧ (∀ q, CropCreateUpdateSerializer.v_quantity v = Some q →
          Decimal.exponent q = -2 ∧ 1 ≤ Decimal.coefficient q)
  ∧ (∀ s, CropCreateUpdateSerializer.v_unit v = Some s →
          s ≠ "" ∧ (char_length s ≤ 20)%nat)
  ∧ (∀ s, CropCreateUpdateSerializer.v_status v = Some s →
          s ∈ Crop.CROP_STATUS)
  ∧ (partial = false →
     is_Some (CropCreateUpdateSerializer.v_name v)
     ∧ is_Some (CropCreateUpdateSerializer.v_crop_type v)
     ∧ is_Some (CropCreateUpdateSerializer.v_quantity v)).
Proof.
  unfold CropCreateUpdateSerializer.run_validation.
  case_errors Hnil; [|done].
  intros [= <-]. simpl.
  repeat (apply app_eq_nil in Hnil as [? Hnil]).
  split_and!.
  - intros s Hs. apply run_field_value in Hs as (a & _ & Hs).
    by apply char_field_value in Hs.
  - intros s Hs. apply run_field_value in Hs as (a & _ & Hs).
    by apply choice_field_value in Hs.
  - intros q Hq. apply run_field_value in Hq as (a & _ & Hq).
    destruct (accepted_decimals a q) as (? & ? & _); auto.
  - intros s Hs. apply run_field_value in Hs as (a & _ & Hs).
    by apply char_field_value in Hs.
  - intros s Hs. apply run_field_value in Hs as (a & _ & Hs).
    by apply choice_field_value in Hs.
  - intros ->.
    split_and!; apply run_field_required;
      match goal with
      | H : error_key _ ?c = [] |- failed ?c = false =>
          unfold error_key in H; by destruct (failed c)
      end.
Qed.

Lemma Forall_save_row {A} (P : A → Prop) (pk : A → Z) (x : A) (l : list A) :
  Forall P l → P x → Forall P (orm.save_row pk x l).
Proof.
  intros Hl Hx. unfold orm.save_row. destruct (existsb _ l).
  - rewrite List_map_fmap, Forall_fmap. eapply Forall_impl; [done|].
    intros r Hr. simpl. by destruct (_ =? _).
  - apply Forall_app. split; [done|]. by constructor.
Qed.

Lemma Forall_List_filter {A} (P : A → Prop) (p : A → bool) (l : list A) :
  Forall P l → Forall P (List.filter p l).
Proof.
  rewrite !Forall_forall. intros H x Hx.
  apply elem_of_List_filter in Hx as [Hx _]. by apply H.
Qed.

(** Split on everything a crop handler branches on. *)
Ltac crop_paths :=
  repeat
    match goal with
    | |- context [match Request.user ?r with _ => _ end] =>
        destruct (Request.user r) eqn:?; simpl
    | |- context [match Request.method ?r with _ => _ end] =>
        destruct (Request.method r) eqn:?; simpl
    | |- context [if User.is_admin ?u then _ else _] =>
        destruct (User.is_admin u) eqn:?; simpl
    | |- context [if User.is_farmer ?u then _ else _] =>
        destruct (User.is_farmer u) eqn:?; simpl
    | |- context [match orm.farmer_by_user ?d ?u with _ => _ end] =>
        destruct (orm.farmer_by_user d u) eqn:?; simpl
    | |- context [match farmer_id ?p with _ => _ end] =>
        destruct (farmer_id p) eqn:?; simpl
    | |- context [if truthy ?k then _ else _] =>
        destruct (truthy k) eqn:?; simpl
    | |- context [match prep_key ?k with _ => _ end] =>
        destruct (prep_key k) eqn:?; simpl
    | |- context [match orm.farmer_by_id ?d ?k with _ => _ end] =>
        destruct (orm.farmer_by_id d k) eqn:?; simpl
    | |- context [match List.find ?p ?l with _ => _ end] =>
        destruct (List.find p l) eqn:?; simpl
    | |- context [if IsCropOwnerOrAdmin.has_object_permission ?r ?o then _ else _] =>
        destruct (IsCropOwnerOrAdmin.has_object_permission r o) eqn:?; simpl
    | |- context [match CropCreateUpdateSerializer.run_validation ?p ?d with _ => _ end] =>
        destruct (CropCreateUpdateSerializer.run_validation p d) eqn:?; simpl
    | |- context [match CropCreateUpdateSerializer.v_quantity ?v with _ => _ end] =>
        destruct (CropCreateUpdateSerializer.v_quantity v) eqn:?; simpl
    | |- context [execute ?f ?w] =>
        let fs := fresh "fs" in
        destruct (execute_cases f w) as [[fs ->]|[fs ->]]; simpl
    | |- context [if ?b then mkWorld _ _ _ else _] => destruct b; simpl
    end.

Ltac unfold_crop_views :=
  unfold as_view, CropListCreateView.dispatch, CropListCreateView.get,
    CropListCreateView.post, CropListCreateView.farmer_or_404,
    CropListCreateView.post_for, CropDetailView.dispatch, CropDetailView.retrieve, CropDetailView.update,
    CropDetailView.destroy, CropDetailView.get_object,
    CropCreateUpdateSerializer.create, CropCreateUpdateSerializer.update,
    check_permissions, check_object_permissions, permission_denied,
    IsAuthenticated.has_permission, IsCropOwnerOrAdmin.has_permission,
    request_user, get_object_or_404, bind, objects, now, ret, raise.

(** X5.  Every request to the crop list and create endpoint and to the
    single-crop endpoint, whatever its caller, payload and outcome, leaves
    a crops table in which every row has a non-empty name of at most 100
    characters, a crop type and a status among the model's choices, a
    non-empty unit of at most 20 characters and a quantity of at least
    0.01 with two decimal places, provided the table was so before. *)
Theorem crop_endpoints_keep_rows_valid `{Python}
    (w : World) (ATOMIC_REQUESTS : bool) (request : Request.t CropPayload)
    (pk : Z) :
  Forall Crop_valid (DB.crops (db w)) →
  Forall Crop_valid
    (DB.crops (db (snd (as_view ATOMIC_REQUESTS
                          (CropListCreateView.dispatch request) w))))
  ∧ Forall Crop_valid
      (DB.crops (db (snd (as_view ATOMIC_REQUESTS
                            (CropDetailView.dispatch request pk) w)))).
Proof.
  intros Hvalid. split.
  - unfold_crop_views. crop_paths; try done.
    all: match goal with
    | H : CropCreateUpdateSerializer.run_validation _ _ = inr ?v |- _ =>
        destruct (crop_validated _ _ _ H)
          as (Hname & Htype & Hq & Hunit & Hstatus & Hreq)
    end.
    all: destruct (Hreq eq_refl) as ([n Hn] & [t' Ht] & _).
    all: apply Forall_app; split; [done|]; constructor; [|done].
    all: unfold Crop_valid; simpl; rewrite Hn, Ht; simpl.
    all: destruct (Hname n Hn), (Hq _ ltac:(eassumption)).
    all: repeat match goal with
         | |- context [default _ ?o] => destruct o eqn:?; simpl
         end.
    all: split_and!; try done; try lia; try (by left);
      try (by eapply Htype); try (by eapply Hunit); try (by eapply Hstatus).
  - unfold_crop_views. crop_paths; try done.
      all: try by apply Forall_List_filter.
      all: match goal with
      | H : CropCreateUpdateSerializer.run_validation _ _ = inr ?v |- _ =>
          destruct (crop_validated _ _ _ H)
            as (Hname & Htype & Hq & Hunit & Hstatus & _)
      end.
      all: match goal with
      | H : List.find _ _ = Some ?j |- _ =>
          apply find_some_elem in H as [Hin _];
          apply select_related_crop in Hin;
          pose proof (proj1 (Forall_forall _ _) Hvalid _ Hin)
            as (? & ? & ? & ? & ? & ? & ? & ?)
      end.
      all: apply Forall_save_row; [done|].
      all: unfold Crop_valid; simpl.
      all: repeat match goal with
           | |- context [default _ ?o] => destruct o eqn:?; simpl
           end.
      all: split_and!; try done;
        try (by eapply Hname); try (by eapply Htype);
        try (by eapply Hq); try (by eapply Hunit); try (by eapply Hstatus).
Qed.

Lemma sample_crops_valid : Forall Crop_valid (DB.crops Sample.store).
Proof.
  repeat constructor; try discriminate; try (simpl; lia);
    by apply (bool_decide_unpack _).
Qed.

Lemma crop_endpoints_keep_rows_valid_witness :
  Forall Crop_valid
    (DB.crops (db (snd (as_view false
       (@CropListCreateView.dispatch Sample.python
          (Sample.request POST Sample.alice
             (Sample.rice (Decimal.mk 5 0) Absent)))
       Sample.world)))).
Proof.
  exact (proj1 (@crop_endpoints_keep_rows_valid Sample.python Sample.world false
                  (Sample.request POST Sample.alice
                     (Sample.rice (Decimal.mk 5 0) Absent)) 1
                  sample_crops_valid)).
Defined.

(** ** The key constraints are kept *)

Lemma wf_insert_crop (d : DB.t) (c : Crop.t) (f : Farmer.t) :
  DB.wf d → Crop.id c = DB.crop_seq d → f ∈ DB.farmers d →
  Farmer.id f = Crop.farmer_id c →
  DB.wf (DB.mk (DB.users d) (DB.farmers d) (DB.crops d ++ [c]) (DB.tokens d)
           (DB.user_seq d) (DB.farmer_seq d) (DB.crop_seq d + 1)).
Proof.
  intros (Hu & Hf & Hc & Hfu & Hcf) Hid Hin Hfid.
  unfold DB.wf. simpl. split_and!; try done.
  - apply Forall_app. split.
    + eapply Forall_impl; [exact Hc|]. simpl. lia.
    + constructor; [lia|done].
  - apply Forall_app. split; [done|]. constructor; [|done].
    apply Exists_exists. eauto.
Qed.

Lemma wf_save_crop (d : DB.t) (c instance : Crop.t) :
  DB.wf d → instance ∈ DB.crops d → Crop.id c = Crop.id instance →
  Crop.farmer_id c = Crop.farmer_id instance →
  DB.wf (DB.set_crops (orm.save_row Crop.id c) d).
Proof.
  intros (Hu & Hf & Hc & Hfu & Hcf) Hin Hid Hfid.
  unfold DB.wf. simpl. split_and!; try done.
  - apply Forall_save_row; [done|]. rewrite Hid.
    by apply (proj1 (Forall_forall _ _) Hc).
  - apply Forall_save_row; [done|]. rewrite Hfid.
    by apply (proj1 (Forall_forall _ _) Hcf instance).
Qed.

Lemma wf_delete_crop (d : DB.t) (c : Crop.t) :
  DB.wf d → DB.wf (orm.delete_crop c d).
Proof.
  intros (Hu & Hf & Hc & Hfu & Hcf).
  unfold DB.wf. simpl. split_and!; try done; by apply Forall_List_filter.
Qed.

(** X6.  Every request to the crop endpoints, whatever its outcome,
    leaves a datastore whose primary keys lie below their counters and
    whose foreign keys resolve, provided it was so before: a crop is
    only ever stored under a farmer profile that exists. *)
Theorem crop_endpoints_keep_keys `{Python}
    (w : World) (ATOMIC_REQUESTS : bool) (request : Request.t CropPayload)
    (pk : Z) :
  DB.wf (db w) →
  DB.wf (db (snd (as_view ATOMIC_REQUESTS
                    (CropListCreateView.dispatch request) w)))
  ∧ DB.wf (db (snd (as_view ATOMIC_REQUESTS
                      (CropDetailView.dispatch request pk) w))).
Proof.
  intros Hwf. split.
  - unfold_crop_views. crop_paths; try done.
    all: match goal with
         | H : _ = Some ?f |- DB.wf (DB.mk _ _ (_ ++ [Crop.mk _ (Farmer.id ?f) _ _ _ _ _ _ _ _ _ _]) _ _ _ _) =>
             apply find_some_elem in H as [Hin _];
             by apply (wf_insert_crop (db w) _ f)
         end.
  - unfold_crop_views. crop_paths; try done.
    all: try by apply wf_delete_crop.
    all: match goal with
         | H : List.find _ _ = Some ?j |- _ =>
             apply find_some_elem in H as [Hin _];
             apply select_related_crop in Hin;
             by apply wf_save_crop with (instance := orm.crop j)
         end.
Qed.

Lemma crop_endpoints_keep_keys_witness :
  DB.wf (db (snd (as_view false
    (CropDetailView.dispatch
       (Sample.request DELETE Sample.alice
          (Sample.rice (Decimal.mk 5 0) Absent)) 1)
    Sample.world))).
Proof.
  refine (proj2 (@crop_endpoints_keep_keys Sample.python Sample.world false
                   (Sample.request DELETE Sample.alice
                      (Sample.rice (Decimal.mk 5 0) Absent)) 1 _)).
  apply (bool_decide_unpack _). vm_compute. exact I.
Defined.

(** ** Create, retrieve and delete compose *)



Lemma select_related_elem (d : DB.t) (j : orm.joined) :
  j ∈ orm.crops_select_related d ↔
  orm.crop j ∈ DB.crops d ∧ orm.join d (orm.crop j) = Some j.
Proof.
  unfold orm.crops_select_related. rewrite list_elem_of_omap. split.
  - intros (c & Hc & Hj). rewrite (join_crop _ _ _ Hj).
    by rewrite merge_sort_Permutation in Hc.
  - intros [Hc Hj]. exists (orm.crop j). by rewrite merge_sort_Permutation.
Qed.

(** X8.  When a delete on the single-crop endpoint is answered 204, the
    crops table has lost exactly the rows with that key, the other tables
    are as before, and a later retrieve of the key by any caller is
    answered 404. *)
Theorem delete_then_retrieve
    (w w' : World) (ATOMIC_REQUESTS : bool)
    (request : Request.t CropPayload) (pk : Z) :
  Request.method request = DELETE →
  as_view ATOMIC_REQUESTS (CropDetailView.dispatch request pk) w
    = (mkResponse HTTP_204_NO_CONTENT NoContent, w') →
  DB.crops (db w')
    = List.filter (λ c, negb (Crop.id c =? pk)) (DB.crops (db w))
  ∧ DB.users (db w') = DB.users (db w)
  ∧ DB.farmers (db w') = DB.farmers (db w)
  ∧ DB.tokens (db w') = DB.tokens (db w)
  ∧ ∀ (again : Request.t CropPayload) ATOMIC_REQUESTS',
      Request.method again = GET → is_Some (Request.user again) →
      as_view ATOMIC_REQUESTS' (CropDetailView.dispatch again pk) w'
      = (mkResponse HTTP_404_NOT_FOUND (Detail Http404), w').
Proof.
  intros Hm. unfold_crop_views. rewrite Hm.
  crop_paths; try done.
  all: intros [= <-]; simpl.
  all: match goal with
       | H : List.find _ _ = Some ?j |- _ =>
           apply find_some_elem in H as [_ Hpk]; apply Z.eqb_eq in Hpk;
           subst pk
       end.
  all: split_and!; try done.
  all: intros again A' Hget [u' Hu']; rewrite Hu', Hget; simpl.
  all: rewrite find_none_all.
  all: try (simpl; by destruct A').
  all: intros y Hy; apply select_related_elem in Hy as [Hy _]; simpl in Hy;
    apply elem_of_List_filter in Hy as [_ Hy];
    by apply negb_true_iff in Hy.
Qed.

Lemma delete_then_retrieve_witness :
  DB.crops (db (snd (as_view false
    (CropDetailView.dispatch
       (Sample.request DELETE Sample.alice
          (Sample.rice (Decimal.mk 5 0) Absent)) 1)
    Sample.world)))
  = List.filter (λ c, negb (Crop.id c =? 1)) (DB.crops (db Sample.world)).
Proof.
  refine (proj1 (delete_then_retrieve Sample.world _ false
                   (Sample.request DELETE Sample.alice
                      (Sample.rice (Decimal.mk 5 0) Absent)) 1
                   eq_refl _)).
  vm_compute. reflexivity.
Defined.


(** What a 201 from the create endpoint tells about the request. *)
Lemma created_crop `{Python} (w w' : World) (ATOMIC_REQUESTS : bool)
    (request : Request.t CropPayload) (c : Crop.t) :
  as_view ATOMIC_REQUESTS (CropListCreateView.dispatch request) w
    = (mkResponse HTTP_201_CREATED (CropSerializer_data c), w') →
  ∃ u f,
    Request.user request = Some u
    ∧ f ∈ DB.farmers (db w)
    ∧ (User.is_farmer u = true → Farmer.user_id f = User.id u)
    ∧ Crop.id c = DB.crop_seq (db w)
    ∧ Crop.farmer_id c = Farmer.id f
    ∧ db w'
      = DB.mk (DB.users (db w)) (DB.farmers (db w)) (DB.crops (db w) ++ [c])
          (DB.tokens (db w)) (DB.user_seq (db w)) (DB.farmer_seq (db w))
          (DB.crop_seq (db w) + 1).
Proof.
  unfold_crop_views. crop_paths; try done.
  all: intros [= <- <-]; simpl.
  all: match goal with
       | Hu : Request.user _ = Some ?u, H : _ = Some ?f |- _ =>
           exists u, f; apply find_some_elem in H as [Hin Hkey]
       end.
  all: split_and!; try done.
  all: intros Hfarmer; try congruence; by apply Z.eqb_eq in Hkey.
Qed.

(** X7.  A crop that the create endpoint has answered 201 for can be
    retrieved at once under its key by the farmer or admin who created
    it, and the answer is the crop of the 201, field for field. *)
Theorem create_then_retrieve `{Python}
    (w w' : World) (ATOMIC_REQUESTS ATOMIC_REQUESTS' : bool)
    (request again : Request.t CropPayload) (u : User.t) (c : Crop.t) :
  DB.wf (db w) →
  NoDup (Farmer.id <$> DB.farmers (db w)) →
  Request.user request = Some u →
  User.role u = "farmer" ∨ User.role u = "admin" →
  as_view ATOMIC_REQUESTS (CropListCreateView.dispatch request) w
    = (mkResponse HTTP_201_CREATED (CropSerializer_data c), w') →
  Request.method again = GET →
  Request.user again = Some u →
  as_view ATOMIC_REQUESTS' (CropDetailView.dispatch again (Crop.id c)) w'
    = (mkResponse HTTP_200_OK (CropSerializer_data c), w').
Proof.
  intros Hwf Hnd Hu Hrole Hcreated Hget Hu'.
  apply created_crop in Hcreated
    as (u0 & f & Hu0 & Hf & Howner & Hid & Hfid & Hdb).
  rewrite Hu in Hu0. injection Hu0 as <-.
  pose proof Hwf as (Hcu & _ & Hcc & Hfu & _).
  (* the join of the new crop *)
  assert (Hfarmer : orm.farmer_by_id (db w') (Crop.farmer_id c) = Some f).
  { unfold orm.farmer_by_id. rewrite Hdb. simpl.
    apply find_unique; [done|by apply Z.eqb_eq|].
    intros y Hy Hkey. apply Z.eqb_eq in Hkey.
    apply (NoDup_key_eq Farmer.id (DB.farmers (db w))); congruence. }
  destruct (proj1 (Exists_exists _ _)
              (proj1 (Forall_forall _ _) Hfu f Hf)) as (u1 & Hu1 & Hu1id).
  destruct (find_is_some (λ r, User.id r =? Farmer.user_id f)
              (DB.users (db w)) u1 Hu1) as [u2 Hu2]; [by apply Z.eqb_eq|].
  assert (Hjoin : orm.join (db w') c = Some (orm.mk_joined c f u2)).
  { unfold orm.join. rewrite Hfarmer. unfold orm.user_by_id. rewrite Hdb.
    simpl. by rewrite Hu2. }
  apply find_some_elem in Hu2 as [_ Hu2id]. apply Z.eqb_eq in Hu2id.
  assert (Hfind :
    List.find (λ j, Crop.id (orm.crop j) =? Crop.id c)
      (CropDetailView.queryset (db w')) = Some (orm.mk_joined c f u2)).
  { apply find_unique.
    - apply select_related_elem. simpl. split; [|done].
      rewrite Hdb. simpl. apply elem_of_app. right. left.
    - simpl. apply Z.eqb_refl.
    - intros y Hy Hkey. apply Z.eqb_eq in Hkey.
      apply select_related_elem in Hy as [Hy Hyjoin].
      rewrite Hdb in Hy. simpl in Hy.
      apply elem_of_app in Hy as [Hy|Hy].
      + apply (proj1 (Forall_forall _ _) Hcc) in Hy. lia.
      + apply list_elem_of_singleton in Hy. rewrite Hy in Hyjoin. congruence. }
  assert (Hperm : IsCropOwnerOrAdmin.has_object_permission again
                    (orm.mk_joined c f u2) = true).
  { unfold IsCropOwnerOrAdmin.has_object_permission. rewrite Hu'. simpl.
    destruct Hrole as [Hrole|Hrole].
    - assert (User.is_admin u = false) as ->.
      { unfold User.is_admin. by rewrite Hrole. }
      unfold User.eqb. apply Z.eqb_eq. rewrite Hu2id.
      apply Howner. by apply is_farmer_role.
    - apply is_admin_role in Hrole. by rewrite Hrole. }
  unfold_crop_views. rewrite Hu', Hget, Hfind. simpl.
  rewrite Hperm. done.
Qed.

Lemma create_then_retrieve_witness :
  ∃ c w',
    as_view false
      (@CropListCreateView.dispatch Sample.python
         (Sample.request POST Sample.alice
            (Sample.rice (Decimal.mk 5 0) Absent)))
      Sample.world
    = (mkResponse HTTP_201_CREATED (CropSerializer_data c), w')
    ∧ as_view false
        (CropDetailView.dispatch
           (Sample.request GET Sample.alice
              (Sample.rice (Decimal.mk 5 0) Absent)) (Crop.id c)) w'
      = (mkResponse HTTP_200_OK (CropSerializer_data c), w').
Proof.
  eexists _, _. split; [vm_compute; reflexivity|].
  eapply (@create_then_retrieve Sample.python Sample.world _ false false
            (Sample.request POST Sample.alice
               (Sample.rice (Decimal.mk 5 0) Absent))
            (Sample.request GET Sample.alice
               (Sample.rice (Decimal.mk 5 0) Absent))
            Sample.alice).
  - apply (bool_decide_unpack _). vm_compute. exact I.
  - apply (bool_decide_unpack _). vm_compute. exact I.
  - reflexivity.
  - by left.
  - vm_compute. reflexivity.
  - reflexivity.
  - reflexivity.
Defined.

(** ** Registration: refusals and what a success adds *)

Section registration_more.
Context `{Django}.

Lemma guard_value (ok : string → bool) (s s' : string) :
  UserRegistrationSerializer.guard ok s = Some s' → s' = s ∧ ok s = true.
Proof.
  unfold UserRegistrationSerializer.guard. destruct (ok s); [|done].
  by intros [= <-].
Qed.

Lemma text_field_value (allow_blank : bool) (s s' : string) :
  text_field allow_blank s = Some s' → s' = strip s.
Proof.
  unfold text_field. simpl. destruct (String.eqb_spec (strip s) "") as [->|].
  - destruct allow_blank; [|done]. by intros [= <-].
  - destruct (has_null_character _); [done|]. by intros [= <-].
Qed.

Lemma char_field_same (n : nat) (allow_blank : bool) (s s' : string) :
  char_field n allow_blank s = Some s' → s' = strip s.
Proof.
  unfold char_field. simpl. destruct (String.eqb_spec (strip s) "") as [->|].
  - destruct allow_blank; [|done]. by intros [= <-].
  - destruct (has_null_character _); [done|].
    destruct (_ <=? _)%nat; [|done]. by intros [= <-].
Qed.

Lemma run_field_given {A} (required partial : bool) (check : A → option A)
    (key : string) (a : A) :
  error_key key (run_field required partial check (Given a)) = [] →
  ∃ b, check a = Some b.
Proof. simpl. destruct (check a); [eauto|done]. Qed.

(** X9.  A registration is answered 400, with nothing written, when the
    username is taken by a stored user, when the password and its
    confirmation differ, or when the password validators refuse the
    password, each taken without the white space around it; the error
    keys name the field, and a mismatch on otherwise clean fields is
    reported under [non_field_errors]. *)
Theorem registration_refusals
    (w : World) (request : Request.t UserRegistrationSerializer.data) :
  let d := Request.data request in
  (∃ name u, UserRegistrationSerializer.username d = Given name
             ∧ u ∈ DB.users (db w) ∧ User.username u = strip name)
  ∨ (∃ p, UserRegistrationSerializer.password d = Given p
          ∧ validate_password (strip p) = false)
  ∨ (∃ p c, UserRegistrationSerializer.password d = Given p
            ∧ UserRegistrationSerializer.confirm_password d = Given c
            ∧ strip p ≠ strip c) →
  ∃ errors,
    RegisterView.post request w
    = (Val (mkResponse HTTP_400_BAD_REQUEST (Errors errors)), w)
    ∧ errors ≠ []
    ∧ ((∃ name u, UserRegistrationSerializer.username d = Given name
                  ∧ u ∈ DB.users (db w) ∧ User.username u = strip name) →
       "username" ∈ errors)
    ∧ ((∃ p, UserRegistrationSerializer.password d = Given p
             ∧ validate_password (strip p) = false) →
       "password" ∈ errors).
Proof.
  intros d Hbad. subst d.
  set (d := Request.data request) in *.
  assert (Hinvalid : ∃ errors,
    UserRegistrationSerializer.run_validation (db w) d = inl errors
    ∧ errors ≠ []
    ∧ ((∃ name u, UserRegistrationSerializer.username d = Given name
                  ∧ u ∈ DB.users (db w) ∧ User.username u = strip name) →
       "username" ∈ errors)
    ∧ ((∃ p, UserRegistrationSerializer.password d = Given p
             ∧ validate_password (strip p) = false) →
       "password" ∈ errors)).
  { unfold UserRegistrationSerializer.run_validation.
    case_errors Hnil.
    - (* no field error: the username is free and the password passes *)
      repeat (apply app_eq_nil in Hnil as [? Hnil]).
      assert (Hfree : ¬ ∃ name u,
                UserRegistrationSerializer.username d = Given name
                ∧ u ∈ DB.users (db w) ∧ User.username u = strip name).
      { intros (name & u & Hname & Hu & Heq).
        match goal with H : error_key "username" _ = [] |- _ =>
          rewrite Hname in H; apply run_field_given in H as [s'' E'] end.
        unfold and_then in E'.
        destruct (char_field 150 false name) as [s1|] eqn:E1; [|done].
        apply char_field_same in E1 as ->.
        destruct (UserRegistrationSerializer.guard username_validator (strip name))
          as [s2|] eqn:E2; [|done].
        apply guard_value in E2 as [-> _].
        apply guard_value in E' as [_ Hfresh].
        unfold UserRegistrationSerializer.unique_username in Hfresh.
        apply negb_true_iff, not_true_iff_false in Hfresh. apply Hfresh.
        apply existsb_exists. exists u.
        split; [by apply list_elem_of_In|]. by apply String.eqb_eq. }
      assert (Hstrong : ¬ ∃ p,
                UserRegistrationSerializer.password d = Given p
                ∧ validate_password (strip p) = false).
      { intros (p & Hp & Hweak).
        match goal with H : error_key "password" _ = [] |- _ =>
          rewrite Hp in H; apply run_field_given in H as [s'' E'] end.
        unfold and_then in E'.
        destruct (text_field false p) as [s1|] eqn:E1; [|done].
        apply text_field_value in E1 as ->.
        apply guard_value in E' as [_ Hok]. congruence. }
      destruct Hbad as [Hbad|[Hbad|(p & c & Hp & Hc & Hne)]]; [done|done|].
      unfold UserRegistrationSerializer.validate. simpl.
      rewrite Hp, Hc. cbn [run_field].
      destruct (and_then _ _ p) as [p'|] eqn:Ep; simpl.
      + unfold and_then in Ep.
        destruct (text_field false p) as [s1|] eqn:E1; [|done].
        apply text_field_value in E1 as ->.
        apply guard_value in Ep as [-> _].
        destruct (text_field false c) as [c'|] eqn:Ec; simpl.
        * apply text_field_value in Ec as ->.
          destruct (decide (Some (strip p) ≠ Some (strip c))) as [_|Heq].
          -- exists ["non_field_errors"]. split_and!; try done;
               intros Hx; exfalso;
               first [by apply Hfree
                     |destruct Hx as (p0 & [= <-] & Hweak); apply Hstrong; eauto].
          -- exfalso. apply Heq. congruence.
        * match goal with H : error_key "confirm_password" _ = [] |- _ =>
            rewrite Hc in H; cbn [run_field] in H; rewrite Ec in H; done end.
      + match goal with H : error_key "password" _ = [] |- _ =>
          rewrite Hp in H; cbn [run_field] in H; rewrite Ep in H; done end.
    - eexists. split; [reflexivity|]. split; [done|].
      rewrite <- Hnil. clear Hnil. split.
      + intros (name & u & Hname & Hu & Heq).
        rewrite Hname. cbn [run_field].
        assert (and_then (char_field 150 false)
                  (and_then (UserRegistrationSerializer.guard username_validator)
                     (UserRegistrationSerializer.guard
                        (UserRegistrationSerializer.unique_username (db w))))
                  name = None) as ->.
        { unfold and_then.
          destruct (char_field 150 false name) as [s1|] eqn:E1; [|done].
          apply char_field_same in E1 as ->.
          destruct (UserRegistrationSerializer.guard username_validator (strip name))
            as [s2|] eqn:E2; [|done].
          apply guard_value in E2 as [-> _].
          unfold UserRegistrationSerializer.guard,
            UserRegistrationSerializer.unique_username.
          assert (existsb (λ u, String.eqb (User.username u) (strip name))
                    (DB.users (db w)) = true) as ->; [|done].
          apply existsb_exists. exists u.
          split; [by apply list_elem_of_In|]. by apply String.eqb_eq. }
        cbn [error_key failed]. rewrite !elem_of_app, !elem_of_cons. tauto.
      + intros (p & Hp & Hweak). rewrite Hp. cbn [run_field].
        assert (and_then (text_field false)
                  (UserRegistrationSerializer.guard validate_password) p
                = None) as ->.
        { unfold and_then.
          destruct (text_field false p) as [s1|] eqn:E1; [|done].
          apply text_field_value in E1 as ->.
          unfold UserRegistrationSerializer.guard. by rewrite Hweak. }
        cbn [error_key failed]. rewrite !elem_of_app, !elem_of_cons. tauto. }
  destruct Hinvalid as (errors & Hv & Hrest).
  exists errors. split; [|done].
  unfold RegisterView.post, bind, objects. simpl. fold d. by rewrite Hv.
Qed.

Lemma wf_register (d : DB.t) (user : User.t) (farmer : Farmer.t)
    (tokens : list Token.t) :
  DB.wf d → User.id user = DB.user_seq d → Farmer.id farmer = DB.farmer_seq d →
  Farmer.user_id farmer = User.id user →
  DB.wf (DB.mk (DB.users d ++ [user]) (DB.farmers d ++ [farmer]) (DB.crops d)
           tokens (DB.user_seq d + 1) (DB.farmer_seq d + 1) (DB.crop_seq d)).
Proof.
  intros (Hu & Hf & Hc & Hfu & Hcf) Huid Hfid Howner.
  unfold DB.wf. simpl. split_and!; try done.
  - apply Forall_app. split.
    + eapply Forall_impl; [exact Hu|]. simpl. lia.
    + constructor; [lia|done].
  - apply Forall_app. split.
    + eapply Forall_impl; [exact Hf|]. simpl. lia.
    + constructor; [lia|done].
  - apply Forall_app. split.
    + eapply Forall_impl; [exact Hfu|]. simpl. intros f.
      rewrite !Exists_exists. intros (u & Hin & Heq). exists u.
      split; [|done]. apply elem_of_app. by left.
    + constructor; [|done]. apply Exists_exists. exists user.
      split; [|done]. apply elem_of_app. right. left.
  - eapply Forall_impl; [exact Hcf|]. simpl. intros c.
    rewrite !Exists_exists. intros (f & Hin & Heq). exists f.
    split; [|done]. apply elem_of_app. by left.
Qed.

(** X10.  A registration answered 201 appends one user and one farmer
    profile and touches no other user, profile or crop; the user takes the
    next key, carries the hash of the password as trimmed of the white
    space around it, and owns a token whose key is the one in the
    response; the key constraints of the datastore still
    hold. *)
Theorem registration_adds
    (w w' : World) (request : Request.t UserRegistrationSerializer.data)
    (r : Response) :
  DB.wf (db w) →
  RegisterView.post request w = (Val r, w') →
  status r = HTTP_201_CREATED →
  ∃ user key farmer,
    body r = Registered "User created successfully" user key
    ∧ DB.users (db w') = DB.users (db w) ++ [user]
    ∧ DB.farmers (db w') = DB.farmers (db w) ++ [farmer]
    ∧ DB.crops (db w') = DB.crops (db w)
    ∧ User.id user = DB.user_seq (db w)
    ∧ (∃ raw, UserRegistrationSerializer.password (Request.data request)
              = Given raw
              ∧ User.password user = make_password (strip raw))
    ∧ Token.mk key (User.id user) ∈ DB.tokens (db w')
    ∧ (∀ k, k ∈ DB.tokens (db w) → k ∈ DB.tokens (db w'))
    ∧ DB.wf (db w').
Proof.
  intros Hwf. unfold RegisterView.post, bind, objects.
  destruct (UserRegistrationSerializer.run_validation _ _) as [errors|v] eqn:Hv;
    simpl; [by intros [= <- <-]|].
  assert (Hraw : ∃ raw,
    UserRegistrationSerializer.password (Request.data request) = Given raw
    ∧ UserRegistrationSerializer.v_password v = Some (strip raw)).
  { unfold UserRegistrationSerializer.run_validation in Hv.
    revert Hv. case_errors Hnil; [|done].
    repeat (apply app_eq_nil in Hnil as [? Hnil]).
    destruct (UserRegistrationSerializer.validate _) as [attrs|] eqn:Hval;
      [|done].
    intros [= <-]. unfold UserRegistrationSerializer.validate in Hval.
    destruct (decide _); [done|]. injection Hval as <-. simpl.
    destruct (UserRegistrationSerializer.password (Request.data request))
      as [| |raw]; simpl in *; try done.
    exists raw. split; [done|].
    destruct (and_then _ _ raw) as [p'|] eqn:Ep; [|done].
    unfold and_then in Ep.
    destruct (text_field false raw) as [s1|] eqn:E1; [|done].
    apply text_field_value in E1 as ->.
    by apply guard_value in Ep as [-> _]. }
  destruct Hraw as (raw & Hraw & Hvraw).
  unfold UserRegistrationSerializer.create,
    UserRegistrationSerializer.create_user, bind, objects, now.
  case_execute; [|done].
  unfold UserRegistrationSerializer.create_farmer, bind, objects, now. simpl.
  case_execute; [|done].
  unfold Token_get_or_create, bind, objects. simpl.
  set (user := User.mk _ _ _ _ _ _ _ _ _ _ _).
  set (farmer := Farmer.mk _ _ _ _ _ _ _).
  destruct (List.find _ _) as [token|] eqn:Hfind; simpl.
  - intros [= <- <-] _. exists user, (Token.key token), farmer. simpl.
    split_and!; try done.
    + exists raw. split; [done|]. unfold user. simpl. by rewrite Hvraw.
    + apply find_some_elem in Hfind as [Hin Hkey]. apply Z.eqb_eq in Hkey.
      simpl in Hkey. rewrite <- Hkey. by destruct token.
    + by apply wf_register.
  - case_execute; [|done]. intros [= <- <-] _.
    exists user, (generate_key (DB.user_seq (db w))), farmer. simpl.
    split_and!; try done.
    + exists raw. split; [done|]. unfold user. simpl. by rewrite Hvraw.
    + apply elem_of_app. right. left.
    + intros k Hk. apply elem_of_app. by left.
    + by apply wf_register.
Qed.
End registration_more.

Lemma registration_refusals_witness :
  ∃ errors,
    @RegisterView.post Sample.django
      (Request.mk POST None []
         (UserRegistrationSerializer.mk_data (Given "alice") Absent
            (Given "correct horse") (Given "correct horse")
            Absent Absent Absent Absent))
      Sample.world
    = (Val (mkResponse HTTP_400_BAD_REQUEST (Errors errors)), Sample.world)
    ∧ errors ≠ [].
Proof.
  destruct (@registration_refusals Sample.django Sample.world
              (Request.mk POST None []
                 (UserRegistrationSerializer.mk_data (Given "alice") Absent
                    (Given "correct horse") (Given "correct horse")
                    Absent Absent Absent Absent)))
    as (errors & Hpost & Hne & _).
  - left. exists "alice", Sample.alice. split; [reflexivity|].
    split; [|reflexivity]. right. left.
  - exists errors. split; [exact Hpost|exact Hne].
Defined.

Lemma registration_adds_witness :
  ∃ user key farmer w',
    DB.users (db w') = DB.users (db Sample.world) ++ [user]
    ∧ DB.farmers (db w') = DB.farmers (db Sample.world) ++ [farmer]
    ∧ Token.mk key (User.id user) ∈ DB.tokens (db w').
Proof.
  assert (Hwf : DB.wf (db Sample.world)).
  { apply (bool_decide_unpack _). vm_compute. exact I. }
  destruct (@registration_adds Sample.django Sample.world
              (snd (@RegisterView.post Sample.django
                      (Request.mk POST None [] Sample.carol) Sample.world))
              (Request.mk POST None [] Sample.carol)
              (mkResponse HTTP_201_CREATED
                 (Registered "User created successfully"
                    (User.mk 4 "carol" "hash:correct horse" "" "Carol" ""
                       "farmer" None None Sample.t2 Sample.t2) "key"))
              Hwf)
    as (user & key & farmer & _ & Husers & Hfarmers & _ & _ & _ & Htoken & _).
  - vm_compute. reflexivity.
  - reflexivity.
  - exists user, key, farmer. eexists. split_and!; eassumption.
Defined.

(** ** The profile endpoints *)

Lemma find_save_row {A} (pk : A → Z) (x : A) (l : list A) :
  List.find (λ r, pk r =? pk x) (orm.save_row pk x l) = Some x.
Proof.
  unfold orm.save_row. destruct (existsb _ l) eqn:Hex.
  - induction l as [|r l IH]; [done|]. simpl in *.
    destruct (pk r =? pk x) eqn:E; simpl.
    + by rewrite Z.eqb_refl.
    + rewrite E. by apply IH.
  - induction l as [|r l IH]; simpl in *.
    + by rewrite Z.eqb_refl.
    + apply orb_false_iff in Hex as [E Hex]. rewrite E. by apply IH.
Qed.

Section profiles.
Context `{Django}.

(** X11.  Neither the farmer's profile endpoint nor the user profile
    endpoint can change the key, the username, the password or the role
    of any user, whatever the payload says and however the request ends:
    the only user row they write is the caller's, under its own key, with
    these four columns as they were. *)
Theorem profile_endpoints_keep_identity
    (w : World) (ATOMIC_REQUESTS : bool)
    (farmer_request : Request.t ProfilePayload)
    (user_request : Request.t UserPayload) (u : User.t) :
  NoDup (User.id <$> DB.users (db w)) →
  u ∈ DB.users (db w) →
  Request.user farmer_request = Some u →
  Request.user user_request = Some u →
  let identity (x : User.t) :=
    (User.id x, User.username x, User.password x, User.role x) in
  identity <$> DB.users (db (snd (as_view ATOMIC_REQUESTS
                                    (FarmerProfileView.dispatch farmer_request)
                                    w)))
    = identity <$> DB.users (db w)
  ∧ identity <$> DB.users (db (snd (UserProfileView.dispatch user_request w)))
    = identity <$> DB.users (db w).
Proof.
  intros Hnd Hin Hfu Huu identity. split.
  - unfold as_view, FarmerProfileView.dispatch, check_permissions,
      permission_denied, IsFarmerUser.has_permission, bind.
    rewrite Hfu.
    destruct (User.is_farmer u); simpl; [|by destruct ATOMIC_REQUESTS].
    destruct (Request.method farmer_request); simpl;
      try by destruct ATOMIC_REQUESTS.
    + unfold FarmerProfileView.get, request_user, bind, objects,
        get_object_or_404. rewrite Hfu. simpl.
      destruct (orm.farmer_by_user _ _); simpl; by destruct ATOMIC_REQUESTS.
    + unfold FarmerProfileView.put, request_user, bind, objects,
        get_object_or_404. rewrite Hfu. simpl.
      destruct (orm.farmer_by_user _ _) as [f|]; simpl;
        [|by destruct ATOMIC_REQUESTS].
      unfold FarmerProfileView.update_user, bind, now.
      destruct (FarmerProfileView.copy_user_fields u _) as [u'|] eqn:Hcopy;
        simpl; [|by destruct ATOMIC_REQUESTS].
      assert (Hsame : identity (FarmerProfileView.touch (clock w) u')
                      = identity u).
      { unfold FarmerProfileView.copy_user_fields in Hcopy.
        repeat match type of Hcopy with
               | context [FarmerProfileView.set_required ?a ?b] =>
                   destruct (FarmerProfileView.set_required a b)
               end; try done.
        by injection Hcopy as <-. }
      case_execute; [|by destruct ATOMIC_REQUESTS].
      assert (Hsaved :
        identity <$> orm.save_row User.id
                       (FarmerProfileView.touch (clock w) u') (DB.users (db w))
        = identity <$> DB.users (db w)).
      { apply save_row_keeps with (y := u); try done.
        by injection Hsame. }
      destruct (FarmerSerializer.run_validation _) as [errors|v]; simpl;
        [done|].
      unfold FarmerSerializer.update, bind, now. simpl.
      case_execute; by destruct ATOMIC_REQUESTS.
  - unfold UserProfileView.dispatch, check_permissions,
      IsAuthenticated.has_permission, bind. rewrite Huu. simpl.
    destruct (Request.method user_request); simpl; try done.
    + unfold UserProfileView.get, request_user, bind. by rewrite Huu.
    + unfold UserProfileView.put, request_user, bind. rewrite Huu. simpl.
      destruct (UserSerializer.run_validation _ _) as [errors|v]; simpl;
        [done|].
      unfold UserSerializer.update, bind, now.
      case_execute; [|done].
      by apply save_row_keeps with (y := u).
Qed.

(** X12.  The user profile endpoint validates before it saves: an update
    it rejects writes nothing.  An update it accepts stores the row of
    the reply under the caller's key, so that a lookup of the key gives
    the reply back. *)
Theorem user_profile_put
    (w w' : World) (request : Request.t UserPayload) (u : User.t)
    (answer : UserProfileView.reply) :
  Request.user request = Some u →
  UserProfileView.put request w = (Val answer, w') →
  match answer with
  | UserProfileView.Rejected errors => w' = w ∧ errors ≠ []
  | UserProfileView.Profile saved =>
      orm.user_by_id (db w') (User.id u) = Some saved
      ∧ User.id saved = User.id u
      ∧ DB.farmers (db w') = DB.farmers (db w)
      ∧ DB.crops (db w') = DB.crops (db w)
      ∧ DB.tokens (db w') = DB.tokens (db w)
  end.
Proof.
  intros Hu. unfold UserProfileView.put, request_user, bind. rewrite Hu. simpl.
  destruct (UserSerializer.run_validation _ _) as [errors|v] eqn:Hv; simpl.
  - intros [= <- <-]. split; [done|].
    unfold UserSerializer.run_validation in Hv. revert Hv.
    case_errors Hnil; [done|]. by intros [= <-].
  - unfold UserSerializer.update, bind, now.
    case_execute; [|done]. intros [= <- <-]. simpl.
    split_and!; try done.
    match goal with
    | |- context [orm.save_row _ ?x] =>
        exact (find_save_row User.id x (DB.users (db w)))
    end.
Qed.
End profiles.

Lemma profile_endpoints_keep_identity_witness :
  (λ x, (User.id x, User.username x, User.password x, User.role x)) <$>
    DB.users (db (snd (as_view false
      (FarmerProfileView.dispatch
         (Sample.request PUT Sample.alice Sample.rename_and_shrink))
      Sample.world)))
  = (λ x, (User.id x, User.username x, User.password x, User.role x)) <$>
      DB.users (db Sample.world).
Proof.
  refine (proj1 (@profile_endpoints_keep_identity Sample.django Sample.world
                   false
                   (Sample.request PUT Sample.alice Sample.rename_and_shrink)
                   (Sample.request PUT Sample.alice
                      (mkUserPayload (Given "root") (Given "admin")
                         (UserSerializer.mk_data Absent Absent Absent
                            Absent Absent)))
                   Sample.alice _ _ eq_refl eq_refl)).
  - apply (bool_decide_unpack _). vm_compute. exact I.
  - right. left.
Defined.

Lemma user_profile_put_witness :
  ∃ saved w',
    @UserProfileView.put Sample.django
      (Sample.request PUT Sample.alice
         (mkUserPayload (Given "root") (Given "admin")
            (UserSerializer.mk_data Absent (Given "Zed") Absent Absent Absent)))
      Sample.world
    = (Val (UserProfileView.Profile saved), w')
    ∧ orm.user_by_id (db w') 2 = Some saved
    ∧ User.role saved = "farmer".
Proof.
  eexists _, _. split; [vm_compute; reflexivity|].
  split; [|reflexivity].
  refine (proj1 (@user_profile_put Sample.django Sample.world _
                   (Sample.request PUT Sample.alice
                      (mkUserPayload (Given "root") (Given "admin")
                         (UserSerializer.mk_data Absent (Given "Zed") Absent
                            Absent Absent)))
                   Sample.alice (UserProfileView.Profile _) eq_refl _)).
  vm_compute. reflexivity.
Defined.

(** ** The dashboards *)

Lemma counts_Permutation {K} (l l' : list (K * nat)) :
  l ≡ₚ l' →
  foldr (λ kv acc, snd kv + acc)%nat 0%nat l
  = foldr (λ kv acc, snd kv + acc)%nat 0%nat l'.
Proof. induction 1; simpl; lia. Qed.

Lemma count_absent {K} `{EqDecision K} (k : K) (l : list K) :
  k ∉ l → List.filter (λ x, bool_decide (x = k)) l = [].
Proof.
  induction l as [|x l IH]; [done|]. intros Hk.
  apply not_elem_of_cons in Hk as [Hne Hk]. simpl.
  rewrite bool_decide_eq_false_2 by congruence. by apply IH.
Qed.

(** The counts of a grouping by key add up to the number of rows. *)
Lemma annotate_count_total {K} `{EqDecision K} (keys : list K) :
  foldr (λ kv acc, snd kv + acc)%nat 0%nat (annotate_count keys)
  = length keys.
Proof.
  unfold annotate_count.
  assert (Hsum : ∀ (groups rows : list K),
    NoDup groups → (∀ x, x ∈ rows → x ∈ groups) →
    foldr (λ kv acc, snd kv + acc)%nat 0%nat
      (List.map (λ k, (k, length (List.filter (λ x, bool_decide (x = k)) rows)))
         groups)
    = length rows).
  { intros groups. induction groups as [|g groups IH]; intros rows Hnd Hsub.
    - destruct rows as [|x rows]; [done|].
      exfalso. eapply elem_of_nil, Hsub. left.
    - apply NoDup_cons in Hnd as [Hg Hnd]. simpl.
      specialize (IH (List.filter (λ x, negb (bool_decide (x = g))) rows) Hnd).
      assert (Hrest :
        List.map (λ k, (k, length (List.filter (λ x, bool_decide (x = k)) rows)))
          groups
        = List.map (λ k, (k, length (List.filter (λ x, bool_decide (x = k))
                     (List.filter (λ x, negb (bool_decide (x = g))) rows))))
            groups).
      { apply map_ext_in. intros k Hk. f_equal. f_equal.
        apply list_elem_of_In in Hk.
        clear -Hk Hg. induction rows as [|x rows IHr]; [done|]. simpl.
        destruct (bool_decide (x = k)) eqn:Ek; simpl.
        - apply bool_decide_eq_true in Ek as ->.
          rewrite (bool_decide_eq_false_2 (k = g)) by congruence. simpl.
          rewrite bool_decide_eq_true_2 by done. by f_equal.
        - destruct (bool_decide (x = g)); simpl; [done|].
          by rewrite Ek. }
      rewrite Hrest, IH.
      + clear. induction rows as [|x rows IHr]; [done|]. simpl.
        destruct (bool_decide (x = g)); simpl; lia.
      + intros x Hx. apply elem_of_List_filter in Hx as [Hx Hne].
        apply negb_true_iff, bool_decide_eq_false in Hne.
        apply Hsub in Hx. apply elem_of_cons in Hx as [?|?]; done. }
  apply Hsum; [apply NoDup_remove_dups|].
  intros x. by rewrite elem_of_remove_dups.
Qed.

Lemma dict_total (l : list (string * nat)) :
  NoDup l.*1 →
  foldr (λ kv acc, snd kv + acc)%nat 0%nat (map_to_list (dict l))
  = foldr (λ kv acc, snd kv + acc)%nat 0%nat l.
Proof.
  intros Hnd. unfold dict. apply counts_Permutation.
  rewrite map_to_list_to_map by (by rewrite fmap_reverse, reverse_Permutation).
  apply reverse_Permutation.
Qed.

Lemma List_filter_Permutation {A} (p : A → bool) (l l' : list A) :
  l ≡ₚ l' → List.filter p l ≡ₚ List.filter p l'.
Proof.
  induction 1 as [|x l l' _ IH|x y l|l1 l2 l3 _ IH1 _ IH2]; simpl.
  - done.
  - destruct (p x); by rewrite IH.
  - destruct (p x), (p y); try done. apply perm_swap.
  - by rewrite IH1.
Qed.

Lemma crops_of_farmer_Permutation (d : DB.t) (f : Farmer.t) :
  orm.crops_of_farmer d f
  ≡ₚ List.filter (λ c, Crop.farmer_id c =? Farmer.id f) (DB.crops d).
Proof.
  unfold orm.crops_of_farmer. apply List_filter_Permutation.
  apply merge_sort_Permutation.
Qed.

(** The farmer's dashboard, by the profile the lookup returns. *)
Lemma farmer_dashboard_lookup {D} (w : World) (request : Request.t D)
    (u : User.t) :
  Request.user request = Some u →
  match orm.farmer_by_user (db w) u with
  | None => FarmerDashboardView.get request w = (Raise Http404, w)
  | Some f =>
      let own :=
        List.filter (λ c, Crop.farmer_id c =? Farmer.id f) (DB.crops (db w)) in
      ∃ data,
        FarmerDashboardView.get request w = (Val data, w)
        ∧ FarmerDashboardView.total_crops data = length own
        ∧ (∀ t n, FarmerDashboardView.crops_by_type data !! t = Some n ↔
             (0 < n)%nat
             ∧ n = length (List.filter
                             (λ c, bool_decide (Crop.crop_type c = t)) own))
        ∧ (∀ s n, FarmerDashboardView.crops_by_status data !! s = Some n ↔
             (0 < n)%nat
             ∧ n = length (List.filter
                             (λ c, bool_decide (Crop.status c = s)) own))
        ∧ (∀ c, c ∈ FarmerDashboardView.recent_crops data → c ∈ own)
        ∧ length (FarmerDashboardView.recent_crops data)
          = (5 `min` length own)%nat
        ∧ StronglySorted Crop.newest_first
            (FarmerDashboardView.recent_crops data)
        ∧ (∃ older,
             own ≡ₚ FarmerDashboardView.recent_crops data ++ older
             ∧ ∀ x y, x ∈ FarmerDashboardView.recent_crops data →
                      y ∈ older → Crop.newest_first x y)
  end.
Proof.
  intros Hu.
  unfold FarmerDashboardView.get, request_user, bind, objects,
    get_object_or_404. rewrite Hu. simpl.
  destruct (orm.farmer_by_user (db w) u) as [f|]; simpl; [|done].
  eexists. split; [reflexivity|]. simpl.
  pose proof (crops_of_farmer_Permutation (db w) f) as Hown.
  pose proof (StronglySorted_merge_sort Crop.newest_first
                (orm.crops_of_farmer (db w) f)) as Hsorted.
  rewrite <- (take_drop 5 (merge_sort _ _)) in Hsorted.
  split_and!.
  - by rewrite Hown.
  - intros t n. rewrite dict_lookup, annotate_count_elem, filter_length_map.
    + by rewrite (Permutation_length
                    (List_filter_Permutation _ _ _ Hown)).
    + rewrite annotate_count_keys. apply NoDup_remove_dups.
  - intros s n. rewrite dict_lookup, annotate_count_elem, filter_length_map.
    + by rewrite (Permutation_length
                    (List_filter_Permutation _ _ _ Hown)).
    + rewrite annotate_count_keys. apply NoDup_remove_dups.
  - intros c Hc. apply elem_of_take in Hc as (i & Hc & _).
    apply list_elem_of_lookup_2 in Hc.
    by rewrite merge_sort_Permutation, Hown in Hc.
  - by rewrite length_take, (Permutation_length (merge_sort_Permutation _ _)),
      Hown.
  - by apply StronglySorted_app_1_l in Hsorted.
  - exists (drop 5 (merge_sort Crop.newest_first (orm.crops_of_farmer (db w) f))).
    split.
    + by rewrite take_drop, merge_sort_Permutation, Hown.
    + intros x y. by apply StronglySorted_app_1_elem_of.
Qed.

(** X13.  The farmer's dashboard is computed from the crops of the
    caller's own profile, the row of the farmers table whose [user_id]
    is the caller's key, and nothing else: the total is their number,
    the two mappings give for every crop type and every status that
    occurs among them the number of them that have it, and the recent
    crops are the five newest of them, newest first (all of them when
    there are fewer).  A caller without a farmer profile is answered
    404. *)
Theorem farmer_dashboard {D} (w : World) (request : Request.t D) (u : User.t) :
  Request.user request = Some u →
  ((∀ f, f ∈ DB.farmers (db w) → Farmer.user_id f ≠ User.id u) →
     FarmerDashboardView.get request w = (Raise Http404, w))
  ∧ (∀ f,
       NoDup (Farmer.user_id <$> DB.farmers (db w)) →
       f ∈ DB.farmers (db w) →
       Farmer.user_id f = User.id u →
       let own :=
         List.filter (λ c, Crop.farmer_id c =? Farmer.id f) (DB.crops (db w)) in
       ∃ data,
         FarmerDashboardView.get request w = (Val data, w)
         ∧ FarmerDashboardView.total_crops data = length own
         ∧ (∀ t n, FarmerDashboardView.crops_by_type data !! t = Some n ↔
              (0 < n)%nat
              ∧ n = length (List.filter
                              (λ c, bool_decide (Crop.crop_type c = t)) own))
         ∧ (∀ s n, FarmerDashboardView.crops_by_status data !! s = Some n ↔
              (0 < n)%nat
              ∧ n = length (List.filter
                              (λ c, bool_decide (Crop.status c = s)) own))
         ∧ (∀ c, c ∈ FarmerDashboardView.recent_crops data → c ∈ own)
         ∧ length (FarmerDashboardView.recent_crops data)
           = (5 `min` length own)%nat
         ∧ StronglySorted Crop.newest_first
             (FarmerDashboardView.recent_crops data)
         ∧ (∃ older,
              own ≡ₚ FarmerDashboardView.recent_crops data ++ older
              ∧ ∀ x y, x ∈ FarmerDashboardView.recent_crops data →
                       y ∈ older → Crop.newest_first x y)).
Proof.
  intros Hu. pose proof (farmer_dashboard_lookup w request u Hu) as Hget.
  split.
  - intros Hno. by rewrite (farmer_by_user_none _ _ Hno) in Hget.
  - intros f Hnd Hin Hid.
    by rewrite (farmer_by_user_unique _ _ _ Hnd Hin Hid) in Hget.
Qed.

(** Bob's dashboard counts his one crop. *)
Lemma farmer_dashboard_witness :
  ∃ data,
    FarmerDashboardView.get (Sample.request GET Sample.bob ()) Sample.world
    = (Val data, Sample.world)
    ∧ FarmerDashboardView.total_crops data = 1%nat.
Proof.
  destruct (proj2 (farmer_dashboard Sample.world
                     (Sample.request GET Sample.bob ()) Sample.bob eq_refl)
              Sample.bob_farm)
    as (data & Hget & Htotal & _).
  - apply (bool_decide_unpack _). vm_compute. exact I.
  - vm_compute. repeat constructor.
  - reflexivity.
  - exists data. split; [exact Hget|exact Htotal].
Defined.


(** X14.  On both dashboards the counts per crop type add up to the total
    number of crops reported, and so do the farmer's counts per status:
    no crop is counted twice or left out. *)
Theorem dashboard_counts_add_up {D} (w : World) (request : Request.t unit)
    (farmer_request : Request.t D) :
  let total (m : gmap string nat) :=
    foldr (λ kv acc, snd kv + acc)%nat 0%nat (map_to_list m) in
  (∀ farmers crops by_type recent,
     AdminDashboardView.get request w
     = (Val (mkResponse HTTP_200_OK
               (AdminDashboard farmers crops by_type recent)), w) →
     total by_type = crops)
  ∧ (∀ data w',
       FarmerDashboardView.get farmer_request w = (Val data, w') →
       total (FarmerDashboardView.crops_by_type data)
       = FarmerDashboardView.total_crops data
       ∧ total (FarmerDashboardView.crops_by_status data)
         = FarmerDashboardView.total_crops data).
Proof.
  intros total. subst total. split.
  - unfold AdminDashboardView.get, bind, objects, ret. intros ???? [= <- <- <- <-].
    rewrite dict_total, annotate_count_total, length_map; [done|].
    rewrite annotate_count_keys. apply NoDup_remove_dups.
  - unfold FarmerDashboardView.get, request_user, bind, objects,
      get_object_or_404.
    destruct (Request.user farmer_request); simpl; [|done].
    destruct (orm.farmer_by_user _ _); simpl; [|done].
    intros data w' [= <- <-]. simpl.
    rewrite !dict_total, !annotate_count_total, !length_map; [done| |];
      rewrite annotate_count_keys; apply NoDup_remove_dups.
Qed.

(** The admin's dashboard of the sample datastore: the counts per crop
    type add up to its three crops. *)
Lemma dashboard_counts_add_up_witness :
  foldr (λ kv acc, snd kv + acc)%nat 0%nat
    (map_to_list
       (dict (annotate_count
                (List.map Crop.crop_type (DB.crops (db Sample.world))))))
  = 3%nat.
Proof.
  apply (proj1 (dashboard_counts_add_up Sample.world
                  (Sample.request GET Sample.root ())
                  (Sample.request GET Sample.alice ()))
           2%nat 3%nat
           (dict (annotate_count
                    (List.map Crop.crop_type (DB.crops (db Sample.world)))))
           (List.map orm.crop
              (take 10 (orm.crops_select_related (db Sample.world))))).
  unfold AdminDashboardView.get, bind, objects, ret.
  reflexivity.
Defined.

(** ** Logout *)

(** X15.  A logout writes to the tokens table only, and only by
    removing rows.  When the datastore takes its write, an authenticated
    caller is answered 200 whether or not the caller has a token, the
    caller's token is gone and every token of another user is still
    there. *)
Theorem logout_deletes_own_token
    (w : World) (ATOMIC_REQUESTS : bool) (request : Request.t unit)
    (u : User.t) :
  Request.method request = POST →
  Request.user request = Some u →
  let served := as_view ATOMIC_REQUESTS (LogoutView.dispatch request) w in
  DB.users (db (snd served)) = DB.users (db w)
  ∧ DB.farmers (db (snd served)) = DB.farmers (db w)
  ∧ DB.crops (db (snd served)) = DB.crops (db w)
  ∧ (∀ k, k ∈ DB.tokens (db (snd served)) → k ∈ DB.tokens (db w))
  ∧ (faults w = [] →
     fst served = mkResponse HTTP_200_OK (Message "Logout successful")
     ∧ (NoDup (Token.key <$> DB.tokens (db w)) →
        NoDup (Token.user_id <$> DB.tokens (db w)) →
        ∀ k, k ∈ DB.tokens (db (snd served)) ↔
             k ∈ DB.tokens (db w) ∧ Token.user_id k ≠ User.id u)).
Proof.
  intros Hm Hu served. subst served.
  unfold as_view, LogoutView.dispatch, check_permissions,
    IsAuthenticated.has_permission, bind.
  rewrite Hm, Hu. simpl.
  unfold LogoutView.post, try_pass, LogoutView.delete_auth_token, bind, objects.
  rewrite Hu. simpl.
  destruct (List.find _ _) as [token|] eqn:Hfind; simpl.
  - destruct (execute_cases
                (DB.set_tokens
                   (List.filter
                      (λ k, negb (String.eqb (Token.key k) (Token.key token)))))
                w) as [[fs Hex]|[fs Hex]]; rewrite Hex; simpl.
    + split_and!; try done.
      * intros k Hk. by apply elem_of_List_filter in Hk as [Hk _].
      * intros Hno. split; [done|]. intros Hkeys Husers k.
        apply find_some_elem in Hfind as [Hin Hid]. apply Z.eqb_eq in Hid.
        rewrite elem_of_List_filter, negb_true_iff.
        split.
        -- intros [Hk Hne]. split; [done|]. intros Heq.
           assert (k = token) as ->.
           { apply (NoDup_key_eq Token.user_id (DB.tokens (db w)));
               [done..|congruence]. }
           by rewrite String.eqb_refl in Hne.
        -- intros [Hk Hne]. split; [done|].
           apply String.eqb_neq. intros Heq. apply Hne.
           assert (k = token) as ->; [|done].
           clear Hne. revert Hkeys Hk Hin Heq. generalize (DB.tokens (db w)).
           intros l Hnd Hk Hin Heq.
           induction l as [|r l IH]; [by apply elem_of_nil in Hk|].
           cbn in Hnd. apply NoDup_cons in Hnd as [Hr Hnd].
           apply elem_of_cons in Hk as [->|Hk];
             apply elem_of_cons in Hin as [->|Hin]; try done.
           ++ exfalso. apply Hr. rewrite Heq. by apply list_elem_of_fmap_2.
           ++ exfalso. apply Hr. rewrite <- Heq. by apply list_elem_of_fmap_2.
           ++ by apply IH.
    + split_and!; try done. intros Hno.
      by rewrite execute_no_faults in Hex.
  - split_and!; try done. intros _. split; [done|].
    intros _ _ k. split; [|tauto].
    intros Hk. split; [done|]. intros Heq.
    assert (Hnone : (Token.user_id k =? User.id u) = false).
    { apply list_elem_of_In in Hk. exact (find_none _ _ Hfind k Hk). }
    apply Z.eqb_neq in Hnone. done.
Qed.

(** Alice holds a token and logs out; root's token stays. *)
Lemma logout_deletes_own_token_witness :
  let w :=
    mkWorld (DB.set_tokens (λ _, [Token.mk "r" 1; Token.mk "a" 2]) Sample.store)
      Sample.t2 [] in
  let served :=
    as_view false (LogoutView.dispatch (Sample.request POST Sample.alice ())) w in
  fst served = mkResponse HTTP_200_OK (Message "Logout successful")
  ∧ ∀ k, k ∈ DB.tokens (db (snd served)) ↔
         k ∈ [Token.mk "r" 1; Token.mk "a" 2] ∧ Token.user_id k ≠ 2.
Proof.
  destruct (logout_deletes_own_token
              (mkWorld (DB.set_tokens (λ _, [Token.mk "r" 1; Token.mk "a" 2])
                          Sample.store) Sample.t2 [])
              false (Sample.request POST Sample.alice ()) Sample.alice
              eq_refl eq_refl) as (_ & _ & _ & _ & Htaken).
  destruct (Htaken eq_refl) as [Hanswer Htokens].
  split; [exact Hanswer|].
  apply Htokens.
  - apply (bool_decide_unpack _). vm_compute. exact I.
  - apply (bool_decide_unpack _). vm_compute. exact I.
Defined.

(** ** Farmers created by an admin *)

Section farmer_create.
Context `{Django}.

(** X16.  The serializer that creates a farmer for an admin inserts the
    user first, with role farmer and the next user key, and then the
    profile, with the next farmer key and that user as its owner; crops
    and tokens are not touched and the key constraints still hold.  Its
    validation does not look at the stored usernames: a username that is
    taken is refused only by the insert, as a database error, with
    nothing written. *)
Theorem farmer_create_adds
    (w : World) (v : FarmerCreateSerializer.validated_data) :
  let username :=
    normalize_username (default "" (FarmerCreateSerializer.v_username v)) in
  ((∃ u, u ∈ DB.users (db w) ∧ User.username u = username) →
     FarmerCreateSerializer.create v w = (Raise DatabaseError, w))
  ∧ ((∀ u, u ∈ DB.users (db w) → User.username u ≠ username) →
     faults w = [] →
     ∃ user farmer w',
       FarmerCreateSerializer.create v w = (Val farmer, w')
       ∧ DB.users (db w') = DB.users (db w) ++ [user]
       ∧ DB.farmers (db w') = DB.farmers (db w) ++ [farmer]
       ∧ DB.crops (db w') = DB.crops (db w)
       ∧ DB.tokens (db w') = DB.tokens (db w)
       ∧ User.id user = DB.user_seq (db w)
       ∧ User.username user = username
       ∧ User.role user = "farmer"
       ∧ Farmer.id farmer = DB.farmer_seq (db w)
       ∧ Farmer.user_id farmer = User.id user
       ∧ (DB.wf (db w) → DB.wf (db w'))).
Proof.
  intros username. subst username.
  unfold FarmerCreateSerializer.create, FarmerCreateSerializer.create_user,
    bind, objects, now. simpl.
  split.
  - intros (u & Hu & Hname).
    assert (existsb
              (λ u, String.eqb (User.username u)
                      (normalize_username
                         (default "" (FarmerCreateSerializer.v_username v))))
              (DB.users (db w)) = true) as ->; [|done].
    apply existsb_exists. exists u.
    split; [by apply list_elem_of_In|]. by apply String.eqb_eq.
  - intros Hfree Hno.
    assert (existsb
              (λ u, String.eqb (User.username u)
                      (normalize_username
                         (default "" (FarmerCreateSerializer.v_username v))))
              (DB.users (db w)) = false) as ->.
    { apply not_true_iff_false. intros Hex.
      apply existsb_exists in Hex as (u & Hu & Heq).
      apply String.eqb_eq in Heq. apply list_elem_of_In in Hu.
      by apply (Hfree u). }
    rewrite execute_no_faults by done. simpl.
    eexists _, _, _. split; [reflexivity|]. simpl.
    split_and!; try done.
    intros Hwf. by apply wf_register.
Qed.
End farmer_create.

(** An admin creates a farmer under the name of Alice, which is taken,
    and under a name that is free. *)
Lemma farmer_create_adds_witness :
  let named (username : string) :=
    FarmerCreateSerializer.mk_validated (Some username) (Some "")
      (Some "correct horse") (Some "Dan") (Some "Poe") None None
      None None None in
  @FarmerCreateSerializer.create Sample.django (named "alice") Sample.world
    = (Raise DatabaseError, Sample.world)
  ∧ ∃ user farmer w',
      @FarmerCreateSerializer.create Sample.django (named "dan") Sample.world
        = (Val farmer, w')
      ∧ DB.users (db w') = DB.users Sample.store ++ [user]
      ∧ DB.farmers (db w') = DB.farmers Sample.store ++ [farmer]
      ∧ Farmer.user_id farmer = User.id user.
Proof.
  intros named. split.
  - apply (proj1 (@farmer_create_adds Sample.django Sample.world
                    (named "alice"))).
    exists Sample.alice. split; [right; left|reflexivity].
  - destruct (proj2 (@farmer_create_adds Sample.django Sample.world
                       (named "dan")))
      as (user & farmer & w' & Hcreate & Hu & Hf & _ & _ & _ & _ & _ & _ & Ho & _).
    + intros u Hu.
      repeat (apply elem_of_cons in Hu as [->|Hu]; [discriminate|]).
      by apply elem_of_nil in Hu.
    + reflexivity.
    + exists user, farmer, w'. by split_and!.
Defined.

Lemma text_field_nonblank (s s' : string) :
  text_field false s = Some s' → s' = strip s ∧ strip s ≠ "".
Proof.
  unfold text_field. simpl. destruct (String.eqb_spec (strip s) ""); [done|].
  destruct (has_null_character _); [done|]. by intros [= <-].
Qed.

Lemma required_field_given {A} (check : A → option A) (key : string)
    (x : Field A) :
  error_key key (run_field true false check x) = [] →
  ∃ a b, x = Given a ∧ check a = Some b
         ∧ value_of (run_field true false check x) = Some b.
Proof.
  destruct x as [| |a]; simpl; try done.
  destruct (check a) as [b|] eqn:E; [|done]. intros _. by exists a, b.
Qed.

Section farmer_create_validation.
Context `{Django}.

(** X17.  A payload that the farmer-creating serializer accepts gives
    the username, the email, the password and both names; each is kept
    as it is without the white space around it, and is not blank; the
    email passes the email validator and the password the password
    validators. *)
Theorem farmer_create_requires
    (d : FarmerCreateSerializer.data)
    (v : FarmerCreateSerializer.validated_data) :
  FarmerCreateSerializer.run_validation d = inr v →
  ∃ username email password first_name last_name,
    FarmerCreateSerializer.username d = Given username
    ∧ FarmerCreateSerializer.email d = Given email
    ∧ FarmerCreateSerializer.password d = Given password
    ∧ FarmerCreateSerializer.first_name d = Given first_name
    ∧ FarmerCreateSerializer.last_name d = Given last_name
    ∧ FarmerCreateSerializer.v_username v = Some (strip username)
    ∧ FarmerCreateSerializer.v_email v = Some (strip email)
    ∧ FarmerCreateSerializer.v_password v = Some (strip password)
    ∧ FarmerCreateSerializer.v_first_name v = Some (strip first_name)
    ∧ FarmerCreateSerializer.v_last_name v = Some (strip last_name)
    ∧ Forall (λ s, strip s ≠ "")
        [username; email; password; first_name; last_name]
    ∧ email_validator (strip email) = true
    ∧ validate_password (strip password) = true.
Proof.
  unfold FarmerCreateSerializer.run_validation.
  case_errors Hnil; [|done]. intros [= <-]. simpl.
  repeat (apply app_eq_nil in Hnil as [? Hnil]).
  repeat match goal with
  | H : error_key _ (run_field true false _ _) = [] |- _ =>
      apply required_field_given in H as (? & ? & ? & ? & ?)
  end.
  repeat match goal with
  | H : and_then _ _ _ = Some _ |- _ =>
      unfold and_then in H;
      match type of H with
      | match text_field false ?s with _ => _ end = _ =>
          let E := fresh "E" in
          destruct (text_field false s) eqn:E; [|done];
          apply text_field_nonblank in E as [-> ?]
      end;
      match type of H with
      | (if ?b then _ else _) = _ =>
          let E := fresh "E" in destruct b eqn:E; [|done];
          injection H as <-
      end
  | H : text_field false _ = Some _ |- _ =>
      apply text_field_nonblank in H as [-> ?]
  end.
  eexists _, _, _, _, _.
  split_and!; try eassumption.
  by repeat constructor.
Qed.
End farmer_create_validation.

Lemma farmer_create_requires_witness :
  ∃ username,
    FarmerCreateSerializer.username
      (FarmerCreateSerializer.mk_data (Given " dan ") (Given "dan@farm.test")
         (Given "correct horse") (Given "Dan") (Given "Poe") Absent Absent
         Absent Absent Absent)
    = Given username
    ∧ strip username = "dan".
Proof.
  destruct (@farmer_create_requires Sample.django
              (FarmerCreateSerializer.mk_data (Given " dan ")
                 (Given "dan@farm.test") (Given "correct horse")
                 (Given "Dan") (Given "Poe") Absent Absent Absent Absent Absent)
              (FarmerCreateSerializer.mk_validated (Some "dan")
                 (Some "dan@farm.test") (Some "correct horse") (Some "Dan")
                 (Some "Poe") None None None None None))
    as (username & email & password & first_name & last_name
        & Hu & _ & _ & _ & _ & Hv & _).
  - vm_compute. reflexivity.
  - exists username. split; [exact Hu|]. by injection Hv.
Defined.
